(** * GraphQL.py: schema analysis, query builders and probe sequencing

    A shallow embedding of [GraphQLVulnerabilityTester] and [main] from
    [GraphQL.py].  Parsed JSON is a tree whose objects are finite maps,
    Python's lookups keep their exceptions, and the methods run in a
    state-and-exception monad over the tester's field list, the console
    and the log of HTTP requests. *)

From Stdlib Require Import ZArith QArith String Ascii List DecimalString DecimalNat.
From stdpp Require Import base option list gmap strings.

Set Warnings "-register-all".

(** ** Values produced by [response.json()] *)

(** What [json.loads] builds: [None], [bool], numbers, [str], [list] and
    [dict].  Numbers are rationals: the program never computes with them,
    only their truth value (zero or not) can matter. *)
Inductive json : Type :=
| JNull
| JBool (b : bool)
| JNum (q : Q)
| JStr (s : string)
| JList (l : list json)
| JObj (m : gmap string json).

(** The exceptions the program can meet, all subclasses of [Exception].
    Besides those its own operations raise there are the ones that reach
    it from [requests.post] and [response.json()]: [RequestException]
    and [JSONDecodeError], for which [_send_query] has a clause, and
    others for which it has none, such as [ValueError] (an integer
    literal of more than 4300 digits in the body), [RecursionError] (a
    body nested too deeply) and urllib3's [LocationParseError] (a host
    name with an empty label). *)
Inductive exn : Type :=
| KeyError (key : string)
| AttributeError (attr : string)
| TypeError
| ValueError
| RecursionError
| LocationParseError (detail : string)
| RequestException (detail : string)
| JSONDecodeError.

Inductive res (A : Type) : Type :=
| Ok (a : A)
| Raise (e : exn).
Arguments Ok {A} a.
Arguments Raise {A} e.

#[global] Instance result_ret : MRet res := λ A a, Ok a.
#[global] Instance result_bind : MBind res := λ A B f r,
  match r with
  | Ok a => f a
  | Raise e => Raise e
  end.

(** ** Python's operations on these values *)
Module Py.

(** [bool(v)] *)
Definition truthy (v : json) : bool :=
  match v with
  | JNull => false
  | JBool b => b
  | JNum q => negb (Qnum q =? 0)%Z
  | JStr s => negb (String.eqb s "")
  | JList l => match l with [] => false | _ => true end
  | JObj m => negb (bool_decide (m = ∅))
  end.

(** [a or b] on values *)
Definition or (a b : json) : json := if truthy a then a else b.

(** [v.get(key, dflt)]: only a [dict] has the method. *)
Definition get (v : json) (key : string) (dflt : json) : res json :=
  match v with
  | JObj m => Ok (default dflt (m !! key))
  | _ => Raise (AttributeError "get")
  end.

(** [v[key]] with a string key. *)
Definition getitem (v : json) (key : string) : res json :=
  match v with
  | JObj m =>
      match m !! key with
      | Some x => Ok x
      | None => Raise (KeyError key)
      end
  | _ => Raise TypeError
  end.

(** [v.startswith(p)]: only a [str] has the method. *)
Definition startswith (v : json) (p : string) : res bool :=
  match v with
  | JStr s => Ok (String.prefix p s)
  | _ => Raise (AttributeError "startswith")
  end.

Fixpoint is_substring (p s : string) : bool :=
  String.prefix p s ||
  match s with
  | EmptyString => false
  | String _ s' => is_substring p s'
  end.

Definition is_str (key : string) (v : json) : bool :=
  match v with
  | JStr s => String.eqb s key
  | _ => false
  end.

(** [key in v] with a string key: key membership for a [dict], element
    equality for a [list], substring for a [str]. *)
Definition contains (key : string) (v : json) : res bool :=
  match v with
  | JObj m => Ok (bool_decide (is_Some (m !! key)))
  | JList l => Ok (existsb (is_str key) l)
  | JStr s => Ok (is_substring key s)
  | _ => Raise TypeError
  end.

(** The items a [for] loop visits.  A [dict] yields its keys and a [str]
    its characters, in both cases strings; every loop body of the
    program raises on a string item, so their order is immaterial. *)
Definition iter (v : json) : res (list json) :=
  match v with
  | JList l => Ok l
  | JObj m => Ok (JStr <$> (map_to_list m).*1)
  | JStr s => Ok ((λ c, JStr (String c EmptyString)) <$> list_ascii_of_string s)
  | _ => Raise TypeError
  end.

End Py.

(** ** The tester object, the console and the network *)

(** An entry of [self.testable_fields]: the dictionary
    [{'type_name': ..., 'field_name': ...}]. *)
Record field_info : Type := FieldInfo {
  type_name : json;
  field_name : json;
}.

(** The JSON payload and headers handed to [requests.post]. *)
Record request : Type := Request {
  req_url : string;
  req_query : string;
  req_operationName : option string;
  req_headers : list (string * string);
}.

(** What [requests.post] does with a request, and what
    [response.json()] does with the response.
    - [TransportFailure detail]: the call raises a [RequestException]
      whose text is [detail].
    - [PostRaises e]: the call raises [e], whatever its class.
    - [Response text body elapsed]: the call returns a response with its
      [text], the value of [response.json()] ([None] when the body is
      not JSON, so that the call raises [JSONDecodeError]) and the
      wall-clock seconds [end_time - start_time] measured around the
      call.
    - [JsonRaises text e elapsed]: the call returns a response on which
      [response.json()] raises [e], whatever its class.
    [JSONDecodeError] comes from parsing a body, so [requests.post]
    does not raise it.
    Seconds are rationals; Python's [0] and [0.0] are the same number
    here. *)
Inductive reply : Type :=
| TransportFailure (detail : string)
| PostRaises (e : exn)
| Response (text : string) (body : option json) (elapsed : Q)
| JsonRaises (text : string) (e : exn) (elapsed : Q).

(** What [response.json()] does on a body that parsed to [body]. *)
Definition parsed (body : option json) : res json :=
  match body with
  | Some v => Ok v
  | None => Raise JSONDecodeError
  end.

(** A line written by [print].  Literal text is kept as it is; where an
    f-string formats a run-time value the value itself is kept:
    [IntrospectionError e] stands for
    [f"\n❌ Error testing introspection: {str(e)}"],
    [FoundField t f] for [f"Type: {t}, Field: {f}"],
    [TestingField t f] for [f"\nTesting field: {t}.{f}"] and
    [ResponseTime r] for [f"Response time: {r:.2f}s"]. *)
Inductive line : Type :=
| Text (s : string)
| IntrospectionError (e : exn)
| FoundField (type_name field_name : json)
| TestingField (type_name field_name : json)
| ResponseTime (seconds : Q).

Record state : Type := State {
  url : string;
  testable_fields : list field_info;
  stdout : list line;
  posted : list request;
}.

Definition M (A : Type) : Type := state → res A * state.

#[global] Instance M_ret : MRet M := λ A a s, (Ok a, s).
#[global] Instance M_bind : MBind M := λ A B f m s,
  match m s with
  | (Ok a, s') => f a s'
  | (Raise e, s') => (Raise e, s')
  end.

Definition lift {A} (r : res A) : M A := λ s, (r, s).

Definition print (l : line) : M unit := λ s,
  (Ok (), State (url s) (testable_fields s) (stdout s ++ [l]) (posted s)).

Definition append_testable (f : field_info) : M unit := λ s,
  (Ok (), State (url s) (testable_fields s ++ [f]) (stdout s) (posted s)).

Definition get_testable_fields : M (list field_info) := λ s,
  (Ok (testable_fields s), s).

(** [for x in items: body(x)] *)
Fixpoint for_each {A} (items : list A) (body : A → M unit) : M unit :=
  match items with
  | [] => mret ()
  | x :: rest => body x ;; for_each rest body
  end.

Definition nl : string := String (ascii_of_nat 10) EmptyString.

(** ** [_analyze_schema] *)

(** [v in ['OBJECT', 'LIST']] *)
Definition in_object_or_list (v : json) : bool :=
  match v with
  | JStr s => String.eqb s "OBJECT" || String.eqb s "LIST"
  | _ => false
  end.

(** The expression bound to [is_object]; [or] evaluates its right operand
    only when the left one is false. *)
Definition is_object (field_type : json) : res bool :=
  kind ← Py.get field_type "kind" JNull;
  if in_object_or_list kind then Ok true
  else
    of_type ← Py.get field_type "ofType" (JObj ∅);
    inner ← Py.get (Py.or of_type (JObj ∅)) "kind" JNull;
    Ok (in_object_or_list inner).

(** Body of the inner loop, for one [field] of [type_info]. *)
Definition analyze_field (type_info field : json) : M unit :=
  field_type ← lift (Py.get field "type" (JObj ∅));
  testable ← lift (is_object field_type);
  if testable : bool then
    tn ← lift (Py.getitem type_info "name");
    fn ← lift (Py.getitem field "name");
    append_testable (FieldInfo tn fn)
  else mret ().

(** Body of the outer loop, for one [type_info]. *)
Definition analyze_type (type_info : json) : M unit :=
  name ← lift (Py.getitem type_info "name");
  internal ← lift (Py.startswith name "__");
  if internal : bool then mret ()
  else
    fields ← lift (Py.get type_info "fields" JNull);
    if Py.truthy fields then
      fields ← lift (Py.getitem type_info "fields");
      items ← lift (Py.iter fields);
      for_each items (analyze_field type_info)
    else mret ().

Definition report_field (f : field_info) : M unit :=
  print (FoundField (type_name f) (field_name f)) ;;
  print (Text "Vulnerable to:") ;;
  print (Text "- Alias Overloading") ;;
  print (Text "- Directive Overloading") ;;
  print (Text "- Field Duplication") ;;
  print (Text "---").

Definition _analyze_schema (schema : json) : M unit :=
  types ← lift (Py.getitem schema "types");
  items ← lift (Py.iter types);
  for_each items analyze_type ;;
  print (Text (nl +:+ "Testable Fields Found:")) ;;
  print (Text "=====================") ;;
  found ← get_testable_fields;
  for_each found report_field.

(** ** Query builders *)

(** [str(i)] for the loop index of [range]. *)
Definition str_of_nat (i : nat) : string :=
  NilEmpty.string_of_uint (Nat.to_uint i).

(** [range(n)]: empty when [n <= 0]. *)
Definition range (n : Z) : list nat := seq 0 (Z.to_nat n).

(** The string bound to [query] in [_test_alias_overloading]. *)
Definition alias_query (field_name : string) (num_aliases : Z) : string :=
  let alias_parts :=
    (λ i, "alias_" +:+ str_of_nat i +:+ ": " +:+ field_name +:+ " { id name }")
      <$> range num_aliases in
  "query {" +:+ String.concat " " alias_parts +:+ "}".

(** The string bound to [query] in [_test_directive_overloading]. *)
Definition directive_query (field_name : string) (num_directives : Z) : string :=
  let directives :=
    String.concat " " ((λ _, "@include(if: true)") <$> range num_directives) in
  "query { " +:+ field_name +:+ " " +:+ directives +:+ " { id name } }".

(** The string bound to [query] in [_test_field_duplication]. *)
Definition duplicate_query (field_name : string) (num_duplicates : Z) : string :=
  let duplicated_fields :=
    String.concat " " ((λ _, "id name") <$> range num_duplicates) in
  "query { " +:+ field_name +:+ " { " +:+ duplicated_fields +:+ " } }".

(** ** Requests *)

Definition headers : list (string * string) :=
  [ ("Content-Type", "application/json");
    ("x-apollo-operation-name", "IntrospectionQuery");
    ("apollo-require-preflight", "true") ].

Definition introspection_query : string :=
  String.concat nl [
    "";
    "        query IntrospectionQuery {";
    "    __schema {";
    "        queryType {";
    "            name";
    "        }";
    "        mutationType {";
    "            name";
    "        }";
    "        subscriptionType {";
    "            name";
    "        }";
    "        types {";
    "            ...FullType";
    "        }";
    "        directives {";
    "            name";
    "            description";
    "            locations";
    "            args {";
    "                ...InputValue";
    "            }";
    "        }";
    "    }";
    "}";
    "";
    "fragment FullType on __Type {";
    "    kind";
    "    name";
    "    description";
    "    fields(includeDeprecated: true) {";
    "        name";
    "        description";
    "        args {";
    "            ...InputValue";
    "        }";
    "        type {";
    "            ...TypeRef";
    "        }";
    "        isDeprecated";
    "        deprecationReason";
    "    }";
    "    inputFields {";
    "        ...InputValue";
    "    }";
    "    interfaces {";
    "        ...TypeRef";
    "    }";
    "    enumValues(includeDeprecated: true) {";
    "        name";
    "        description";
    "        isDeprecated";
    "        deprecationReason";
    "    }";
    "    possibleTypes {";
    "        ...TypeRef";
    "    }";
    "}";
    "";
    "fragment InputValue on __InputValue {";
    "    name";
    "    description";
    "    type {";
    "        ...TypeRef";
    "    }";
    "    defaultValue";
    "}";
    "";
    "fragment TypeRef on __Type {";
    "    kind";
    "    name";
    "    ofType {";
    "        kind";
    "        name";
    "        ofType {";
    "            kind";
    "            name";
    "            ofType {";
    "                kind";
    "                name";
    "            }";
    "        }";
    "    }";
    "}";
    "        "
  ].

(** [try: body except <class> as e: ...]: [handler e] is [None] when the
    clause does not match the class of [e], which then propagates. *)
Definition try_catch {A} (body : M A) (handler : exn → option (M A)) : M A := λ s,
  match body s with
  | (Ok a, s') => (Ok a, s')
  | (Raise e, s') =>
      match handler e with
      | Some h => h s'
      | None => (Raise e, s')
      end
  end.

(** Truth value of the [error] component: [None] or a string. *)
Definition error_truthy (error : option string) : bool :=
  match error with
  | Some msg => negb (String.eqb msg "")
  | None => false
  end.

(** [error or (result and result.get('errors'))], as a condition. *)
Definition errors_detected (result : json) (error : option string) : res bool :=
  if error_truthy error then Ok true
  else if Py.truthy result then
    errors ← Py.get result "errors" JNull;
    Ok (Py.truthy errors)
  else Ok false.

Inductive outcome : Type :=
| Finished
| Exited (code : Z)
| Uncaught (e : exn).

Section Tester.

(** The endpoint: its answer to a request, given the requests made
    before it. *)
Variable net : list request → request → reply.

(** [str(v)] for a value that is not a string, as an f-string formats
    it; the text is not modelled. *)
Variable str_of_value : json → string.

(** [int(s)]; [None] where Python raises [ValueError]. *)
Variable int_of_string : string → option Z.

Definition py_str (v : json) : string :=
  match v with
  | JStr s => s
  | _ => str_of_value v
  end.

(** [requests.post(self.url, json=payload, headers=self.headers)]: the
    request is logged, then the endpoint answers or the call raises.  A
    response is kept as its text, what [response.json()] does on it, and
    the seconds measured. *)
Definition requests_post (query : string) (operationName : option string)
  : M (string * res json * Q) := λ s,
  let req := Request (url s) query operationName headers in
  let s' := State (url s) (testable_fields s) (stdout s) (posted s ++ [req]) in
  match net (posted s) req with
  | TransportFailure detail => (Raise (RequestException detail), s')
  | PostRaises e => (Raise e, s')
  | Response text body elapsed => (Ok (text, parsed body, elapsed), s')
  | JsonRaises text e elapsed => (Ok (text, Raise e, elapsed), s')
  end.

(** [response.json()] *)
Definition response_json (response : string * res json * Q) : res json :=
  response.1.2.

Definition _send_query (query : string) : M (json * Q * option string) :=
  try_catch
    (response ← requests_post query None;
     let response_time := response.2 in
     try_catch
       (result ← lift (response_json response);
        mret (result, response_time, None))
       (λ e, match e with
             | JSONDecodeError =>
                 Some (mret (JNull, response_time,
                             Some ("Invalid JSON response: " +:+ response.1.1)))
             | _ => None
             end))
    (λ e, match e with
          | RequestException detail =>
              Some (mret (JNull, 0%Q, Some ("Request error: " +:+ detail)))
          | _ => None
          end).

(** The common tail of the three test methods: send, print the time,
    print the hint when errors are detected. *)
Definition probe (query : string) : M unit :=
  r ← _send_query query;
  let '(result, response_time, error) := r in
  print (ResponseTime response_time) ;;
  detected ← lift (errors_detected result error);
  if detected : bool
  then print (Text "Errors detected - possible protection in place")
  else mret ().

Definition _test_alias_overloading (field_name : json) (num_aliases : Z) : M unit :=
  print (Text (nl +:+ "Testing Alias Overloading...")) ;;
  probe (alias_query (py_str field_name) num_aliases).

Definition _test_directive_overloading (field_name : json) (num_directives : Z) : M unit :=
  print (Text (nl +:+ "Testing Directive Overloading...")) ;;
  probe (directive_query (py_str field_name) num_directives).

Definition _test_field_duplication (field_name : json) (num_duplicates : Z) : M unit :=
  print (Text (nl +:+ "Testing Field Duplication...")) ;;
  probe (duplicate_query (py_str field_name) num_duplicates).

Definition test_overloading_attacks (info : field_info) (num_iterations : Z) : M unit :=
  print (TestingField (type_name info) (field_name info)) ;;
  print (Text "========================================") ;;
  _test_alias_overloading (field_name info) num_iterations ;;
  _test_directive_overloading (field_name info) num_iterations ;;
  _test_field_duplication (field_name info) num_iterations.

(** The [try] block of [test_introspection]. *)
Definition introspection_body : M bool :=
  response ← requests_post introspection_query (Some "IntrospectionQuery");
  result ← lift (response_json response);
  has_data ← lift (Py.contains "data" result);
  has_schema ←
    (if has_data : bool then
       data ← lift (Py.getitem result "data");
       lift (Py.contains "__schema" data)
     else mret false);
  if has_schema : bool then
    print (Text (nl +:+ "✅ Introspection is ENABLED!")) ;;
    data ← lift (Py.getitem result "data");
    schema ← lift (Py.getitem data "__schema");
    _analyze_schema schema ;;
    mret true
  else
    print (Text (nl +:+ "❌ Introspection appears to be DISABLED")) ;;
    mret false.

Definition test_introspection : M bool :=
  try_catch introspection_body
    (λ e, Some (print (IntrospectionError e) ;; mret false)).

(** The tester as [main] constructs it, before anything is printed or
    posted. *)
Definition initial (endpoint : string) : state := State endpoint [] [] [].

(** [main] from its first [print] on, with the command line parsed. *)
Definition run (endpoint : string) (num_iterations : Z) : res unit * state :=
  (print (Text ("Testing GraphQL endpoint: " +:+ endpoint)) ;;
   enabled ← test_introspection;
   if enabled : bool then
     print (Text (nl +:+ "Starting vulnerability tests...")) ;;
     found ← get_testable_fields;
     for_each found (λ info, test_overloading_attacks info num_iterations)
   else
     print (Text (nl +:+ "Cannot proceed with testing - introspection is disabled")))
    (initial endpoint).

(** [int(sys.argv[2]) if len(sys.argv) > 2 else 100], on the arguments
    after the URL. *)
Definition parse_iterations (rest : list string) : option Z :=
  match rest with
  | [] => Some 100%Z
  | arg :: _ => int_of_string arg
  end.

(** [main], with [sys.argv] split into the program name and the
    arguments after it. *)
Definition main (argv0 : string) (args : list string) : outcome * state :=
  match args with
  | [] =>
      (Exited 1,
       State "" [] [Text ("Usage: " +:+ argv0 +:+ " <graphql-endpoint-url> [num_iterations]")] [])
  | endpoint :: rest =>
      match parse_iterations rest with
      | None => (Uncaught ValueError, State "" [] [] [])
      | Some num_iterations =>
          match run endpoint num_iterations with
          | (Ok _, s) => (Finished, s)
          | (Raise e, s) => (Uncaught e, s)
          end
      end
  end.

End Tester.

(** * Definitions used by the statements *)

(** ** The classification as the specification words it *)

(** [typeRef.kind == k] *)
Definition kind_is (t : gmap string json) (k : string) : Prop :=
  t !! "kind" = Some (JStr k).


(** [typeRef.kind ∈ {OBJECT, LIST}], as a test. *)
Definition has_kind (t : gmap string json) : bool :=
  match t !! "kind" with
  | Some (JStr k) => String.eqb k "OBJECT" || String.eqb k "LIST"
  | _ => false
  end.

(** [spec_testable] as a test. *)
Definition spec_testableb (t : gmap string json) : bool :=
  has_kind t ||
  match t !! "ofType" with
  | Some (JObj u) => has_kind u
  | _ => false
  end.

(** [ofType] is missing, falsy ([null] above all) or an object. *)
Definition oftype_shaped (t : gmap string json) : Prop :=
  match t !! "ofType" with
  | None => True
  | Some v => Py.truthy v = false ∨ ∃ u, v = JObj u
  end.

(** The value under [name], [None] when there is none. *)
Definition name_of (v : json) : json :=
  match v with
  | JObj m => default JNull (m !! "name")
  | _ => JNull
  end.

(** The classification of a field object by its [type]; a field without
    an object under [type] has no kind and is not testable. *)
Definition field_testable (field : json) : bool :=
  match field with
  | JObj f =>
      match f !! "type" with
      | Some (JObj t) => spec_testableb t
      | _ => false
      end
  | _ => false
  end.

(** The fields of a type object; none when [fields] is missing or not a
    list. *)
Definition fields_of (type_info : json) : list json :=
  match type_info with
  | JObj ti =>
      match ti !! "fields" with
      | Some (JList l) => l
      | _ => []
      end
  | _ => []
  end.

(** The name of the type starts with the internal marker. *)
Definition is_internal (type_info : json) : bool :=
  match type_info with
  | JObj ti =>
      match ti !! "name" with
      | Some (JStr n) => String.prefix "__" n
      | _ => false
      end
  | _ => false
  end.

(** ** Entries the analyzer accepts *)

(** A field object: its [type], when the key is there, is an object
    whose [ofType] is inspected only when it has to be and is then
    missing, falsy or an object; its [name] is there when the field is
    testable. *)
Definition field_ok (field : json) : Prop :=
  ∃ f, field = JObj f ∧
    match f !! "type" with
    | None => True
    | Some v => ∃ t, v = JObj t ∧ (has_kind t = true ∨ oftype_shaped t)
    end ∧
    (field_testable field = true → is_Some (f !! "name")).

(** The value under [fields]: missing, falsy, or a list of field objects. *)
Definition fields_ok (fields : option json) : Prop :=
  match fields with
  | None => True
  | Some v => Py.truthy v = false ∨ ∃ l, v = JList l ∧ Forall field_ok l
  end.

(** A type object: it has a string [name]; unless that name is internal,
    its [fields] are as above. *)
Definition type_ok (type_info : json) : Prop :=
  ∃ ti n, type_info = JObj ti ∧ ti !! "name" = Some (JStr n) ∧
    (String.prefix "__" n = true ∨ fields_ok (ti !! "fields")).

(** ** The list the analyzer is to produce *)

(** The entries one type contributes: none when it is internal, else its
    testable fields in their order. *)
Definition type_entries (type_info : json) : list field_info :=
  if is_internal type_info then []
  else (λ f, FieldInfo (name_of type_info) (name_of f))
         <$> List.filter field_testable (fields_of type_info).

(** "Testable fields are appended in the order encountered (type order
    from the introspection response, then field order within the
    type)." *)
Definition expected_fields (types : list json) : list field_info :=
  flat_map type_entries types.


(** [fi] belongs to a type whose name is a string not starting with the
    internal marker. *)
Definition not_internal_entry (fi : field_info) : Prop :=
  ∃ n, type_name fi = JStr n ∧ String.prefix "__" n = false.

(** ** States reached *)

(** The state after [new] has been appended to [self.testable_fields]. *)
Definition add_fields (new : list field_info) (s : state) : state :=
  State (url s) (testable_fields s ++ new) (stdout s) (posted s).

(** The state after the lines [ls] have been printed. *)
Definition add_lines (ls : list line) (s : state) : state :=
  State (url s) (testable_fields s) (stdout s ++ ls) (posted s).

(** The state after the requests [reqs] have been posted. *)
Definition add_posted (reqs : list request) (s : state) : state :=
  State (url s) (testable_fields s) (stdout s) (posted s ++ reqs).

(** The state in which [main] calls [test_introspection]. *)
Definition started (endpoint : string) : state :=
  add_lines [Text ("Testing GraphQL endpoint: " +:+ endpoint)] (initial endpoint).

(** The lines printed for one listed field. *)
Definition report_lines (f : field_info) : list line :=
  [ FoundField (type_name f) (field_name f);
    Text "Vulnerable to:";
    Text "- Alias Overloading";
    Text "- Directive Overloading";
    Text "- Field Duplication";
    Text "---" ].

(** The lines [_analyze_schema] prints after its loops. *)
Definition analysis_report (fs : list field_info) : list line :=
  [ Text (nl +:+ "Testable Fields Found:"); Text "=====================" ]
  ++ flat_map report_lines fs.

(** ** Texts inside a query *)

(** The number of positions of [s] at which [p] occurs.  The texts
    counted below cannot overlap themselves, so this is also Python's
    [s.count(p)]. *)
Fixpoint occurrences (p s : string) : nat :=
  match s with
  | EmptyString => 0
  | String _ s' => (if String.prefix p s then 1 else 0) + occurrences p s'
  end.

(** [c in s] *)
Fixpoint has_char (c : ascii) (s : string) : bool :=
  match s with
  | EmptyString => false
  | String d s' => Ascii.eqb c d || has_char c s'
  end.

(** No non-empty tail of [q], nor [q] itself, starts [b]: an occurrence
    of [c q] cannot begin before [b] and end inside it. *)
Fixpoint tails_miss (q b : string) : bool :=
  match q with
  | EmptyString => true
  | String _ q' => negb (String.prefix q b) && tails_miss q' b
  end.

(** Parts [part 0 .. part (n-1)], each after the first preceded by a
    single space. *)
Fixpoint joined (part : nat → string) (n : nat) : string :=
  match n with
  | 0 => ""
  | S m => if (m =? 0)%nat then part 0%nat else joined part m +:+ " " +:+ part m
  end.

(** The [i]-th selection of the alias query for the field [F]. *)
Definition alias_selection (F : string) (i : nat) : string :=
  "alias_" +:+ str_of_nat i +:+ ": " +:+ F +:+ " { id name }".

(** ** Requests of a run *)

(** The request [_send_query] posts for [query]. *)
Definition probe_request (endpoint query : string) : request :=
  Request endpoint query None headers.

(** The request [test_introspection] posts. *)
Definition introspection_request (endpoint : string) : request :=
  Request endpoint introspection_query (Some "IntrospectionQuery") headers.

(** A reply after which [probe] returns: a transport failure, a body that
    is not JSON, or a JSON value that is falsy or an object.  On any
    other JSON value [result.get('errors')] raises.  An exception of
    [requests.post] or [response.json()] is safe when [_send_query] has
    a clause for it: a [RequestException] in both places, a
    [JSONDecodeError] of [response.json()]. *)
Definition reply_safe (r : reply) : bool :=
  match r with
  | TransportFailure _ => true
  | PostRaises e =>
      match e with
      | RequestException _ => true
      | _ => false
      end
  | Response _ None _ => true
  | Response _ (Some v) _ =>
      negb (Py.truthy v) || match v with JObj _ => true | _ => false end
  | JsonRaises _ e _ =>
      match e with
      | JSONDecodeError | RequestException _ => true
      | _ => false
      end
  end.

(** The exception [probe] ends with after a reply, if any: the one that
    [requests.post] or [response.json()] raised and [_send_query] passed
    on, else the [AttributeError] of [result.get]. *)
Definition probe_exception (r : reply) : option exn :=
  if reply_safe r then None
  else match r with
       | PostRaises e | JsonRaises _ e _ => Some e
       | _ => Some (AttributeError "get")
       end.

(** What [_send_query] returns or raises, by the reply.  The inner
    clause takes a [JSONDecodeError] of [response.json()], the outer one
    a [RequestException] of either call; anything else passes. *)
Definition send_result (r : reply) : res (json * Q * option string) :=
  match r with
  | TransportFailure detail =>
      Ok (JNull, 0%Q, Some ("Request error: " +:+ detail))
  | PostRaises e =>
      match e with
      | RequestException detail =>
          Ok (JNull, 0%Q, Some ("Request error: " +:+ detail))
      | _ => Raise e
      end
  | Response text None elapsed =>
      Ok (JNull, elapsed, Some ("Invalid JSON response: " +:+ text))
  | Response text (Some body) elapsed => Ok (body, elapsed, None)
  | JsonRaises text e elapsed =>
      match e with
      | JSONDecodeError =>
          Ok (JNull, elapsed, Some ("Invalid JSON response: " +:+ text))
      | RequestException detail =>
          Ok (JNull, 0%Q, Some ("Request error: " +:+ detail))
      | _ => Raise e
      end
  end.


(** The three queries of one field, in the order of
    [test_overloading_attacks]. *)
Definition field_probes (str_of_value : json → string) (n : Z)
    (info : field_info) : list string :=
  [ alias_query (py_str str_of_value (field_name info)) n;
    directive_query (py_str str_of_value (field_name info)) n;
    duplicate_query (py_str str_of_value (field_name info)) n ].

(** "For each TestableField, in discovery order, and for each of the
    three attack kinds, in the fixed order." *)
Definition all_probes (str_of_value : json → string) (n : Z)
    (found : list field_info) : list string :=
  flat_map (field_probes str_of_value n) found.

(** Posting [queries] one after the other to [endpoint], stopping after
    the first reply that is not safe: the result, which is the exception
    of the probe that stopped it when one did, and the log of
    requests. *)
Fixpoint send_all (net : list request → request → reply) (endpoint : string)
    (queries : list string) (log : list request) : res unit * list request :=
  match queries with
  | [] => (Ok (), log)
  | q :: rest =>
      let req := probe_request endpoint q in
      match probe_exception (net log req) with
      | None => send_all net endpoint rest (log ++ [req])
      | Some e => (Raise e, log ++ [req])
      end
  end.

(** The outcome of running a command that posts [queries]. *)
Definition posts (net : list request → request → reply)
    (m : M unit) (queries : list string) : Prop :=
  ∀ s, ∃ ls,
    m s =
    ((send_all net (url s) queries (posted s)).1,
     State (url s) (testable_fields s) (stdout s ++ ls)
           (send_all net (url s) queries (posted s)).2).

(** The log when the probe of index [k] of the plan is posted: the
    introspection request and the probes before it. *)
Definition log_before (endpoint : string) (plan : list string) (k : nat)
    : list request :=
  introspection_request endpoint :: (probe_request endpoint <$> take k plan).

(** ** Sample inputs *)

Definition type_ref (kind : string) (of_type : json) : json :=
  JObj {[ "kind" := JStr kind; "name" := JNull; "ofType" := of_type ]}.

Definition schema_field (name : string) (type : json) : json :=
  JObj {[ "name" := JStr name; "type" := type ]}.

Definition schema_type (name : string) (fields : list json) : json :=
  JObj {[ "name" := JStr name; "fields" := JList fields ]}.

(** [Query] with an object field, a scalar field and a non-null list;
    the internal [__Schema]; and [User], which has a [users] field too. *)
Definition sample_types : list json :=
  [ schema_type "Query"
      [ schema_field "users" (type_ref "OBJECT" JNull);
        schema_field "count" (type_ref "SCALAR" JNull);
        schema_field "posts" (type_ref "NON_NULL" (type_ref "LIST" JNull)) ];
    schema_type "__Schema"
      [ schema_field "types" (type_ref "LIST" JNull) ];
    schema_type "User"
      [ schema_field "users" (type_ref "LIST" JNull) ] ].

(** The response of the specification's end-to-end example. *)
Definition example_response : json :=
  JObj {[ "data" := JObj {[ "__schema" := JObj {[ "types" := JList
    [ JObj {[ "name" := JStr "Query";
              "fields" := JList
                [ JObj {[ "name" := JStr "users";
                          "type" := JObj {[ "kind" := JStr "OBJECT";
                                            "name" := JStr "User";
                                            "ofType" := JNull ]} ]} ] ]} ] ]} ]} ]}.

(** An endpoint that serves [example_response] to the introspection
    request and [answer] to every probe. *)
Definition example_net (answer : reply) (log : list request) (req : request) : reply :=
  match req_operationName req with
  | Some _ => Response "" (Some example_response) (1 # 10)
  | None => answer
  end.

(** An endpoint that serves [example_response] to the introspection
    request and answers the probes in turn from [answers]; once these
    are used up, every request fails in transport. *)
Definition scripted_net (answers : list reply) (log : list request) (req : request)
    : reply :=
  match req_operationName req with
  | Some _ => Response "" (Some example_response) (1 # 10)
  | None => default (TransportFailure "connection refused") (answers !! (length log - 1))
  end.

Definition empty_users : reply :=
  Response "" (Some (JObj {[ "data" := JObj {[ "users" := JList [] ]} ]})) (1 # 20).

(** A response whose second type entry has no [name]. *)
Definition broken_response : json :=
  JObj {[ "data" := JObj {[ "__schema" := JObj {[ "types" := JList
    [ schema_type "Query" [ schema_field "users" (type_ref "OBJECT" JNull) ];
      JObj {[ "kind" := JStr "OBJECT" ]} ] ]} ]} ]}.

(** ** Further definitions *)

(** The hint line of the three test methods. *)
Definition hint : line := Text "Errors detected - possible protection in place".

(** The usage line of [main]. *)
Definition usage (argv0 : string) : line :=
  Text ("Usage: " +:+ argv0 +:+ " <graphql-endpoint-url> [num_iterations]").

(** [resolves t k]: [k] is the kind reached from the type reference [t]
    by stepping through its [NON_NULL] wrappers. *)
Inductive resolves : json → string → Prop :=
| resolves_here (t : gmap string json) (k : string) :
    t !! "kind" = Some (JStr k) → k ≠ "NON_NULL" → resolves (JObj t) k
| resolves_under (t : gmap string json) (u : json) (k : string) :
    t !! "kind" = Some (JStr "NON_NULL") → t !! "ofType" = Some u →
    resolves u k → resolves (JObj t) k.

(** A type reference as GraphQL's introspection gives it, read as far as
    the analyzer looks: a [NON_NULL] wraps an object that is not itself
    [NON_NULL], a [LIST] wraps anything, and any other kind is a named
    type, whose [ofType] is missing or [null]. *)
Definition graphql_type_ref (t : gmap string json) : Prop :=
  ∃ k, t !! "kind" = Some (JStr k) ∧
    ((k = "NON_NULL" ∧
      ∃ u k', t !! "ofType" = Some (JObj u) ∧ u !! "kind" = Some (JStr k') ∧
              k' ≠ "NON_NULL") ∨
     k = "LIST" ∨
     (k ≠ "NON_NULL" ∧ k ≠ "LIST" ∧
      (t !! "ofType" = None ∨ t !! "ofType" = Some JNull))).

(** The sum of the lengths of the strings of a list. *)
Definition total_length (l : list string) : nat :=
  foldr (λ x acc, String.length x + acc) 0 l.

(** The seconds [probe] prints for a reply: 0 after a transport
    failure, which is any [RequestException], else the time measured. *)
Definition reported_seconds (r : reply) : Q :=
  match r with
  | TransportFailure _ | PostRaises _ => 0%Q
  | Response _ _ elapsed => elapsed
  | JsonRaises _ (RequestException _) _ => 0%Q
  | JsonRaises _ _ elapsed => elapsed
  end.

(** The replies [probe] flags with the hint: a transport failure, a body
    that is not JSON, a JSON object with a truthy [errors]. *)
Definition flagged (r : reply) : bool :=
  match r with
  | TransportFailure _ | PostRaises _ | JsonRaises _ _ _ => true
  | Response _ None _ => true
  | Response _ (Some (JObj m)) _ => Py.truthy (default JNull (m !! "errors"))
  | Response _ (Some _) _ => false
  end.

(** The lines [probe] prints after a safe reply. *)
Definition probe_lines (r : reply) : list line :=
  ResponseTime (reported_seconds r) :: if flagged r then [hint] else [].

(** A run that ends right after the introspection step, having printed
    [ls] there. *)
Definition ends_after_introspection (endpoint : string) (ls : list line)
    : res unit * state :=
  (Ok (),
   State endpoint []
     (Text ("Testing GraphQL endpoint: " +:+ endpoint) :: ls ++
      [Text (nl +:+ "Cannot proceed with testing - introspection is disabled")])
     [introspection_request endpoint]).

(** * Properties *)

(** ** The classification *)

Lemma has_kind_spec t : has_kind t = true ↔ kind_is t "OBJECT" ∨ kind_is t "LIST".
Proof.
  unfold has_kind, kind_is.
  destruct (t !! "kind") as [[]|]; try (split; [discriminate|intros [|]; discriminate]).
  rewrite orb_true_iff, !String.eqb_eq.
  split; intros [|]; subst; auto; left + right; congruence.
Qed.


Lemma in_object_or_list_kind t :
  in_object_or_list (default JNull (t !! "kind")) = has_kind t.
Proof. unfold has_kind. by destruct (t !! "kind") as [[]|]. Qed.

Lemma truthy_obj_empty : Py.truthy (JObj ∅) = false.
Proof. reflexivity. Qed.

Lemma is_object_shaped t :
  has_kind t = true ∨ oftype_shaped t →
  is_object (JObj t) = Ok (spec_testableb t).
Proof.
  intros H. unfold is_object, spec_testableb. cbn.
  rewrite in_object_or_list_kind.
  destruct (has_kind t) eqn:Hk; [done|]. cbn.
  destruct H as [|H]; [done|]. unfold oftype_shaped in H.
  destruct (t !! "ofType") as [v|] eqn:Ho; cbn.
  - unfold Py.or. destruct H as [Hv|[u ->]].
    + rewrite Hv. cbn. destruct v; try done.
      (* a falsy object is the empty one *)
      cbn in Hv. apply negb_false_iff, bool_decide_eq_true in Hv. subst.
      unfold has_kind. by rewrite lookup_empty.
    + destruct (Py.truthy (JObj u)) eqn:Hu; cbn.
      * by rewrite in_object_or_list_kind.
      * cbn in Hu. apply negb_false_iff, bool_decide_eq_true in Hu. subst.
        unfold has_kind. by rewrite lookup_empty.
  - done.
Qed.

(** ** Running commands *)

Lemma add_fields_nil s : add_fields [] s = s.
Proof. destruct s. unfold add_fields. cbn. by rewrite app_nil_r. Qed.

Lemma add_fields_app a b s : add_fields b (add_fields a s) = add_fields (a ++ b) s.
Proof. unfold add_fields. cbn. by rewrite app_assoc. Qed.

Lemma bind_lift_ok {A B} (a : A) (k : A → M B) s : (lift (Ok a) ≫= k) s = k a s.
Proof. reflexivity. Qed.

Lemma bind_lift_raise {A B} e (k : A → M B) s :
  (lift (Raise e) ≫= k) s = (Raise e, s).
Proof. reflexivity. Qed.

Lemma bind_run {A B} (m : M A) (k : A → M B) s :
  (m ≫= k) s =
  match m s with
  | (Ok a, s') => k a s'
  | (Raise e, s') => (Raise e, s')
  end.
Proof. reflexivity. Qed.

Lemma for_each_cons {A} (x : A) rest body s :
  for_each (x :: rest) body s =
  match body x s with
  | (Ok _, s') => for_each rest body s'
  | (Raise e, s') => (Raise e, s')
  end.
Proof. reflexivity. Qed.

(** ** The analyzer on acceptable entries *)

Lemma analyze_field_ok ti tn field s :
  ti !! "name" = Some tn → field_ok field →
  analyze_field (JObj ti) field s =
  (Ok (), add_fields (if field_testable field
                      then [FieldInfo tn (name_of field)] else []) s).
Proof.
  intros Hn (f & -> & Ht & Hname). unfold analyze_field. cbn [Py.get].
  rewrite bind_lift_ok.
  destruct (f !! "type") as [v|] eqn:Hty; cbn [default from_option id].
  - destruct Ht as (t & -> & Ht).
    rewrite (is_object_shaped t Ht), bind_lift_ok.
    cbn [field_testable] in *. rewrite Hty in *.
    destruct (spec_testableb t).
    + destruct Hname as [fn Hfn]; [done|].
      cbn [Py.getitem name_of]. rewrite Hn, Hfn. reflexivity.
    + by rewrite add_fields_nil.
  - cbn [field_testable]. rewrite Hty. cbn.
    by rewrite add_fields_nil.
Qed.

Lemma analyze_fields_ok ti tn l s :
  ti !! "name" = Some tn → Forall field_ok l →
  for_each l (analyze_field (JObj ti)) s =
  (Ok (), add_fields (FieldInfo tn ∘ name_of <$> List.filter field_testable l) s).
Proof.
  intros Hn Hl. revert s.
  induction Hl as [|x l Hx Hl IH]; intros s.
  - cbn. by rewrite add_fields_nil.
  - rewrite for_each_cons, (analyze_field_ok ti tn x s Hn Hx), IH.
    rewrite add_fields_app. cbn [List.filter].
    by destruct (field_testable x).
Qed.

Lemma truthy_list l : Py.truthy (JList l) = false → l = [].
Proof. by destruct l. Qed.

Lemma analyze_type_ok type_info s :
  type_ok type_info →
  analyze_type type_info s = (Ok (), add_fields (type_entries type_info) s).
Proof.
  intros (ti & n & -> & Hn & H).
  unfold analyze_type, type_entries. cbn [Py.getitem is_internal]. rewrite Hn.
  rewrite bind_lift_ok. cbn [Py.startswith]. rewrite bind_lift_ok.
  destruct (String.prefix "__" n) eqn:Hp.
  { by rewrite add_fields_nil. }
  destruct H as [|H]; [done|].
  cbn [Py.get]. rewrite bind_lift_ok. cbn [fields_of name_of].
  rewrite Hn. cbn [default from_option id].
  unfold fields_ok in H.
  destruct (ti !! "fields") as [v|] eqn:Hf; cbn [default from_option id].
  - destruct H as [Hv|(l & -> & Hl)].
    + rewrite Hv. destruct v; try by rewrite add_fields_nil.
      apply truthy_list in Hv. subst. by rewrite add_fields_nil.
    + destruct (Py.truthy (JList l)) eqn:Hv.
      * rewrite bind_lift_ok. cbn [Py.iter]. rewrite bind_lift_ok.
        by apply analyze_fields_ok.
      * apply truthy_list in Hv. subst. by rewrite add_fields_nil.
  - cbn. by rewrite add_fields_nil.
Qed.

Lemma analyze_types_ok types s :
  Forall type_ok types →
  for_each types analyze_type s = (Ok (), add_fields (expected_fields types) s).
Proof.
  intros H. revert s. induction H as [|x l Hx Hl IH]; intros s.
  - cbn. by rewrite add_fields_nil.
  - rewrite for_each_cons, (analyze_type_ok x s Hx), IH, add_fields_app.
    reflexivity.
Qed.

(** ** The converse: an entry walked without an exception is acceptable *)

Lemma is_object_ok_inv field_type b :
  is_object field_type = Ok b →
  ∃ t, field_type = JObj t ∧ (has_kind t = true ∨ oftype_shaped t).
Proof.
  destruct field_type as [| | | | |t]; try discriminate.
  intros H. exists t. split; [done|].
  unfold is_object in H. cbn in H. rewrite in_object_or_list_kind in H.
  destruct (has_kind t); [by left|right]. cbn in H.
  unfold oftype_shaped. destruct (t !! "ofType") as [v|]; [|done].
  cbn in H. unfold Py.or in H.
  destruct (Py.truthy v) eqn:Hv; [right|by left].
  destruct v; try discriminate. by eexists.
Qed.

Lemma analyze_field_ok_inv type_info field s s' :
  analyze_field type_info field s = (Ok (), s') → field_ok field.
Proof.
  unfold analyze_field.
  destruct field as [| | | | |f]; try discriminate.
  cbn [Py.get]. rewrite bind_lift_ok. intros H.
  exists f. split; [done|].
  destruct (is_object (default (JObj ∅) (f !! "type"))) as [b|e] eqn:Hb;
    [|by rewrite bind_lift_raise in H].
  rewrite bind_lift_ok in H.
  destruct (is_object_ok_inv _ _ Hb) as (t & Ht & Hshape).
  cbn [field_testable].
  destruct (f !! "type") as [v|] eqn:Hty; cbn in Ht.
  - subst v. split; [by eexists|].
    cbn [default from_option id] in Hb.
    rewrite (is_object_shaped t Hshape) in Hb. injection Hb as <-.
    intros Hb. rewrite Hb in H.
    destruct (Py.getitem type_info "name"); [|by rewrite bind_lift_raise in H].
    rewrite bind_lift_ok in H. cbn [Py.getitem] in H.
    destruct (f !! "name"); [by eexists|by rewrite bind_lift_raise in H].
  - split; [done|discriminate].
Qed.

Lemma for_each_ok_inv {A} (body : A → M unit) (P : A → Prop) :
  (∀ x s s', body x s = (Ok (), s') → P x) →
  ∀ l s s', for_each l body s = (Ok (), s') → Forall P l.
Proof.
  intros Hbody l. induction l as [|x l IH]; intros s s' H; [constructor|].
  rewrite for_each_cons in H.
  destruct (body x s) as [[[]|e] s1] eqn:Hx; [|discriminate].
  constructor; eauto.
Qed.

Lemma analyze_type_ok_inv type_info s s' :
  analyze_type type_info s = (Ok (), s') → type_ok type_info.
Proof.
  unfold analyze_type.
  destruct type_info as [| | | | |ti]; try discriminate.
  cbn [Py.getitem].
  destruct (ti !! "name") as [nm|] eqn:Hn; [|discriminate].
  rewrite bind_lift_ok.
  destruct nm as [| | |n| |]; try discriminate.
  cbn [Py.startswith]. rewrite bind_lift_ok. intros H.
  exists ti, n. split; [done|]. split; [done|].
  destruct (String.prefix "__" n); [by left|right].
  cbn [Py.get] in H. rewrite bind_lift_ok in H.
  unfold fields_ok.
  destruct (ti !! "fields") as [v|]; [|done]. cbn [default from_option id] in H.
  destruct (Py.truthy v) eqn:Hv; [right|by left].
  rewrite bind_lift_ok in H.
  destruct v as [| | |str|l|m]; try discriminate.
  - (* a non-empty string: its first character is not a field object *)
    cbn [Py.iter] in H. rewrite bind_lift_ok in H.
    destruct str as [|c str]; [discriminate|].
    cbn in H. discriminate.
  - exists l. split; [done|].
    cbn [Py.iter] in H. rewrite bind_lift_ok in H.
    eapply for_each_ok_inv; [|exact H].
    intros x s1 s2. apply analyze_field_ok_inv.
  - (* a non-empty dictionary: its first key is not a field object *)
    cbn [Py.iter] in H. rewrite bind_lift_ok in H.
    destruct (map_to_list m) as [|[k v] kvs] eqn:Hm.
    + apply map_to_list_empty_iff in Hm. subst.
      by rewrite truthy_obj_empty in Hv.
    + cbn in H. discriminate.
Qed.

Lemma analyze_types_ok_inv types s s' :
  for_each types analyze_type s = (Ok (), s') → Forall type_ok types.
Proof.
  apply for_each_ok_inv. intros x s1 s2. apply analyze_type_ok_inv.
Qed.

(** ** The whole method *)

Lemma add_lines_nil s : add_lines [] s = s.
Proof. destruct s. unfold add_lines. cbn. by rewrite app_nil_r. Qed.

Lemma add_lines_app a b s : add_lines b (add_lines a s) = add_lines (a ++ b) s.
Proof. unfold add_lines. cbn. by rewrite app_assoc. Qed.

Lemma print_run l s : print l s = (Ok (), add_lines [l] s).
Proof. reflexivity. Qed.

Lemma bind_print {B} l (k : unit → M B) s :
  (print l ≫= k) s = k () (add_lines [l] s).
Proof. reflexivity. Qed.

Lemma bind_get_fields {B} (k : list field_info → M B) s :
  (get_testable_fields ≫= k) s = k (testable_fields s) s.
Proof. reflexivity. Qed.

Lemma report_field_lines f s :
  report_field f s = (Ok (), add_lines (report_lines f) s).
Proof.
  unfold report_field. rewrite !bind_print, print_run, !add_lines_app.
  reflexivity.
Qed.

Lemma report_fields_lines fs s :
  for_each fs report_field s = (Ok (), add_lines (flat_map report_lines fs) s).
Proof.
  revert s. induction fs as [|f fs IH]; intros s.
  - cbn. by rewrite add_lines_nil.
  - by rewrite for_each_cons, report_field_lines, IH, add_lines_app.
Qed.

Lemma analyze_schema_loops sch types s :
  sch !! "types" = Some (JList types) →
  _analyze_schema (JObj sch) s =
  match for_each types analyze_type s with
  | (Ok _, s') => (Ok (), add_lines (analysis_report (testable_fields s')) s')
  | (Raise e, s') => (Raise e, s')
  end.
Proof.
  intros H. unfold _analyze_schema. cbn [Py.getitem]. rewrite H.
  rewrite bind_lift_ok. cbn [Py.iter]. rewrite bind_lift_ok.
  rewrite bind_run.
  destruct (for_each types analyze_type s) as [[[]|e] s']; [|done].
  rewrite !bind_print, bind_get_fields, report_fields_lines, !add_lines_app.
  reflexivity.
Qed.

(** ** What the loops append, whatever the input *)

Lemma analyze_field_appends type_info field s :
  ∃ new, (analyze_field type_info field s).2 = add_fields new s ∧
    Forall (λ fi, Py.getitem type_info "name" = Ok (type_name fi)) new.
Proof.
  unfold analyze_field. rewrite bind_run. cbn [lift].
  destruct (Py.get field "type" (JObj ∅)) as [ft|e];
    [|exists []; by rewrite add_fields_nil].
  rewrite bind_run. cbn [lift].
  destruct (is_object ft) as [[]|e];
    [| exists []; by rewrite add_fields_nil ..].
  rewrite bind_run. cbn [lift].
  destruct (Py.getitem type_info "name") as [tn|e];
    [|exists []; by rewrite add_fields_nil].
  rewrite bind_run. cbn [lift].
  destruct (Py.getitem field "name") as [fn|e];
    [|exists []; by rewrite add_fields_nil].
  exists [FieldInfo tn fn]. split; [done|]. by constructor.
Qed.

Lemma for_each_appends {A} (body : A → M unit) (Q : field_info → Prop) :
  (∀ x s, ∃ new, (body x s).2 = add_fields new s ∧ Forall Q new) →
  ∀ l s, ∃ new, (for_each l body s).2 = add_fields new s ∧ Forall Q new.
Proof.
  intros Hbody l. induction l as [|x l IH]; intros s.
  - exists []. by rewrite add_fields_nil.
  - rewrite for_each_cons.
    destruct (Hbody x s) as (new1 & H1 & HQ1).
    destruct (body x s) as [[[]|e] s1]; cbn in H1; subst s1.
    + destruct (IH (add_fields new1 s)) as (new2 & H2 & HQ2).
      exists (new1 ++ new2). rewrite H2, add_fields_app.
      split; [done|]. by apply Forall_app.
    + by exists new1.
Qed.

Lemma analyze_type_appends type_info s :
  ∃ new, (analyze_type type_info s).2 = add_fields new s ∧
    Forall not_internal_entry new.
Proof.
  unfold analyze_type. rewrite bind_run. cbn [lift].
  destruct (Py.getitem type_info "name") as [nm|e] eqn:Hn;
    [|exists []; by rewrite add_fields_nil].
  rewrite bind_run. cbn [lift].
  destruct nm as [| | |n| |];
    try (exists []; by rewrite add_fields_nil).
  cbn [Py.startswith].
  destruct (String.prefix "__" n) eqn:Hp;
    [exists []; by rewrite add_fields_nil|].
  rewrite bind_run. cbn [lift].
  destruct (Py.get type_info "fields" JNull) as [fs|e];
    [|exists []; by rewrite add_fields_nil].
  destruct (Py.truthy fs); [|exists []; by rewrite add_fields_nil].
  rewrite bind_run. cbn [lift].
  destruct (Py.getitem type_info "fields") as [fs'|e];
    [|exists []; by rewrite add_fields_nil].
  rewrite bind_run. cbn [lift].
  destruct (Py.iter fs') as [items|e];
    [|exists []; by rewrite add_fields_nil].
  apply for_each_appends. intros x s1.
  destruct (analyze_field_appends type_info x s1) as (new & H & HQ).
  exists new. split; [done|].
  eapply Forall_impl; [exact HQ|]. intros fi Hfi. cbn in Hfi.
  rewrite Hn in Hfi. injection Hfi as Hfi. exists n. by split.
Qed.

Lemma analyze_internal_type type_info s :
  is_internal type_info = true → analyze_type type_info s = (Ok (), s).
Proof.
  destruct type_info as [| | | | |ti]; try discriminate. cbn [is_internal].
  unfold analyze_type. cbn [Py.getitem].
  destruct (ti !! "name") as [[| | |n| |]|]; try discriminate.
  intros Hp. rewrite bind_lift_ok. cbn [Py.startswith].
  by rewrite bind_lift_ok, Hp.
Qed.

Lemma analyze_types_skip_internal types s :
  for_each types analyze_type s =
  for_each (List.filter (λ ty, negb (is_internal ty)) types) analyze_type s.
Proof.
  revert s. induction types as [|ty types IH]; intros s; [done|].
  cbn [List.filter]. destruct (is_internal ty) eqn:Hi; cbn [negb].
  - by rewrite for_each_cons, analyze_internal_type.
  - rewrite !for_each_cons. by destruct (analyze_type ty s) as [[[]|e] s1].
Qed.

(** ** The claims about [_analyze_schema] *)


Lemma analyze_type_without_fields ti n s :
  ti !! "name" = Some (JStr n) →
  (ti !! "fields" = None ∨ ∃ v, ti !! "fields" = Some v ∧ Py.truthy v = false) →
  analyze_type (JObj ti) s = (Ok (), s).
Proof.
  intros Hn Hf. unfold analyze_type. cbn [Py.getitem]. rewrite Hn, bind_lift_ok.
  cbn [Py.startswith]. rewrite bind_lift_ok.
  destruct (String.prefix "__" n); [done|].
  cbn [Py.get]. rewrite bind_lift_ok.
  destruct Hf as [->|(v & -> & Hv)]; cbn [default from_option id]; [done|].
  by rewrite Hv.
Qed.

Lemma is_object_without_oftype t :
  t !! "ofType" = None →
  is_object (JObj t) = is_object (JObj (<["ofType" := JObj ∅]> t)).
Proof.
  intros H. unfold is_object. cbn [Py.get].
  by rewrite H, lookup_insert_eq, lookup_insert_ne.
Qed.

Lemma analyze_field_without_type type_info f s :
  f !! "type" = None → analyze_field type_info (JObj f) s = (Ok (), s).
Proof. intros H. unfold analyze_field. cbn [Py.get]. by rewrite H. Qed.

(** C2 as amended.  The analysis of a types array ends without an
    exception exactly when every entry is acceptable: an object with a
    string [name] whose [fields], unless the name is internal, are
    missing, falsy or a list of field objects, each with a [type] that is
    missing or an object and a [name] where the field is testable.  In
    particular a named type whose [fields] are missing or falsy is walked
    as one without fields, a type reference without [ofType] is
    classified as with an empty object there, and a field without [type]
    is passed over. *)
Theorem analysis_ok_iff_entries_ok
    (sch : gmap string json) (types : list json) (s : state) :
  sch !! "types" = Some (JList types) →
  ((_analyze_schema (JObj sch) s).1 = Ok () ↔ Forall type_ok types) ∧
  (∀ ti n s',
     ti !! "name" = Some (JStr n) →
     (ti !! "fields" = None ∨ ∃ v, ti !! "fields" = Some v ∧ Py.truthy v = false) →
     analyze_type (JObj ti) s' = (Ok (), s')) ∧
  (∀ t, t !! "ofType" = None →
     is_object (JObj t) = is_object (JObj (<["ofType" := JObj ∅]> t))) ∧
  (∀ type_info f s',
     f !! "type" = None → analyze_field type_info (JObj f) s' = (Ok (), s')).
Proof.
  intros H. split; [|split; [|split]].
  - rewrite (analyze_schema_loops _ _ _ H). split.
    + destruct (for_each types analyze_type s) as [[[]|e] s'] eqn:Hl; [|discriminate].
      intros _. by eapply analyze_types_ok_inv.
    + intros Hok. by rewrite analyze_types_ok.
  - apply analyze_type_without_fields.
  - apply is_object_without_oftype.
  - apply analyze_field_without_type.
Qed.

(** C3.  Whatever the types array, and whether or not the analysis ends
    with an exception, every entry it appends carries a type name that
    does not start with [__]; and the analysis is the same as that of the
    array with its internal types removed. *)
Theorem internal_types_excluded
    (sch : gmap string json) (types : list json) (s : state) :
  let after := _analyze_schema (JObj (<["types" := JList types]> sch)) s in
  (∃ new, testable_fields after.2 = testable_fields s ++ new ∧
          Forall not_internal_entry new) ∧
  after =
    _analyze_schema
      (JObj (<["types" := JList (List.filter (λ ty, negb (is_internal ty)) types)]> sch)) s.
Proof.
  cbn zeta. rewrite !(analyze_schema_loops _ _ _ (lookup_insert_eq _ _ _)).
  rewrite <- analyze_types_skip_internal. split; [|done].
  destruct (for_each_appends analyze_type not_internal_entry
              analyze_type_appends types s) as (new & H & HQ).
  exists new. split; [|done].
  destruct (for_each types analyze_type s) as [[[]|e] s']; cbn in H; by subst s'.
Qed.

(** ** The entries appended, whether or not the walk ends in an exception *)






(** ** Counting the occurrences of a text in a query *)

#[local] Arguments String.append : simpl nomatch.

Lemma append_assoc (a b c : string) : (a +:+ b) +:+ c = a +:+ (b +:+ c).
Proof. induction a as [|x a IH]; cbn; [done|by rewrite IH]. Qed.

Lemma prefix_cons c p d s :
  String.prefix (String c p) (String d s) = Ascii.eqb c d && String.prefix p s.
Proof.
  cbn. destruct (ascii_dec c d) as [->|Hne].
  - by rewrite Ascii.eqb_refl.
  - by apply Ascii.eqb_neq in Hne as ->.
Qed.

Lemma prefix_empty s : String.prefix "" s = true.
Proof. by destruct s. Qed.

Lemma prefix_app_self q s : String.prefix q (q +:+ s) = true.
Proof.
  induction q as [|c q IH]; [apply prefix_empty|].
  cbn [String.append]. by rewrite prefix_cons, Ascii.eqb_refl.
Qed.

Lemma prefix_app_keep q a b :
  tails_miss q b = true → String.prefix q (a +:+ b) = String.prefix q a.
Proof.
  revert q. induction a as [|x a IH]; intros q Hq.
  - cbn [String.append]. destruct q as [|y q]; [by destruct b|].
    cbn [tails_miss] in Hq. apply andb_true_iff in Hq as [Hq _].
    apply negb_true_iff in Hq. by rewrite Hq.
  - destruct q as [|y q]; [done|].
    cbn [String.append]. rewrite !prefix_cons.
    cbn [tails_miss] in Hq. apply andb_true_iff in Hq as [_ Hq].
    by rewrite IH.
Qed.

Lemma occurrences_cons p x s :
  occurrences p (String x s) =
  (if String.prefix p (String x s) then 1 else 0) + occurrences p s.
Proof. reflexivity. Qed.

Lemma occurrences_app c p a b :
  tails_miss p b = true →
  occurrences (String c p) (a +:+ b) =
  occurrences (String c p) a + occurrences (String c p) b.
Proof.
  intros Hp. induction a as [|x a IH]; [done|].
  cbn [String.append occurrences]. rewrite IH, !prefix_cons.
  rewrite (prefix_app_keep p a b Hp). lia.
Qed.

Lemma occurrences_app_no_first c p a b :
  has_char c a = false →
  occurrences (String c p) (a +:+ b) = occurrences (String c p) b.
Proof.
  induction a as [|d a IH]; [done|]. cbn [has_char String.append occurrences].
  intros H. apply orb_false_iff in H as [Hc Hs].
  by rewrite prefix_cons, Hc, IH.
Qed.

Lemma occurrences_at_prefix c p s :
  occurrences (String c p) (String c p +:+ s) =
  S (occurrences (String c p) (p +:+ s)).
Proof.
  cbn [String.append]. rewrite occurrences_cons.
  change (String c (p +:+ s)) with (String c p +:+ s).
  by rewrite prefix_app_self.
Qed.

Lemma str_of_nat_chars i :
  has_char "a" (str_of_nat i) = false ∧ has_char "{" (str_of_nat i) = false.
Proof.
  unfold str_of_nat. induction (Nat.to_uint i); cbn; tauto.
Qed.

Lemma concat_snoc sep l x :
  String.concat sep (l ++ [x]) =
  match l with
  | [] => x
  | _ => String.concat sep l +:+ sep +:+ x
  end.
Proof.
  induction l as [|y l IH]; [done|].
  destruct l as [|z l]; [done|].
  change (String.concat sep ((y :: z :: l) ++ [x]))
    with (y +:+ sep +:+ String.concat sep ((z :: l) ++ [x])).
  rewrite IH.
  change (String.concat sep (y :: z :: l))
    with (y +:+ sep +:+ String.concat sep (z :: l)).
  by rewrite !append_assoc.
Qed.

Lemma concat_joined part n :
  String.concat " " (part <$> seq 0 n) = joined part n.
Proof.
  induction n as [|m IH]; [done|].
  rewrite seq_S, fmap_app. cbn [fmap list_fmap plus].
  rewrite concat_snoc, IH. cbn [joined].
  by destruct m.
Qed.

(** Parts that each hold the text once, whatever follows them, hold it
    [length l] times when joined by single spaces. *)
Lemma occurrences_concat c p (f : nat → string) tail l :
  Ascii.eqb c " " = false →
  (∀ i rest, occurrences (String c p) (f i +:+ rest) =
             S (occurrences (String c p) rest)) →
  occurrences (String c p) (String.concat " " (f <$> l) +:+ tail) =
  length l + occurrences (String c p) tail.
Proof.
  intros Hc Hf. induction l as [|x l IH]; [done|].
  destruct l as [|y l].
  - cbn [fmap list_fmap String.concat length]. by rewrite Hf.
  - change (String.concat " " (f <$> x :: y :: l))
      with (f x +:+ " " +:+ String.concat " " (f <$> y :: l)).
    rewrite !append_assoc, Hf.
    cbn [String.append]. rewrite occurrences_cons, prefix_cons, Hc.
    cbn [andb]. rewrite IH. reflexivity.
Qed.

(** *** The alias query *)

Lemma alias_selection_alias F i rest :
  occurrences "alias_" F = 0 →
  occurrences "alias_" (alias_selection F i +:+ rest) =
  S (occurrences "alias_" rest).
Proof.
  intros HF. unfold alias_selection.
  rewrite !append_assoc, occurrences_at_prefix.
  (* the rest of the alias, its index and the colon hold no further start *)
  cbn [String.append].
  rewrite !occurrences_cons, !prefix_cons. cbn [Ascii.eqb Bool.eqb andb plus].
  rewrite (occurrences_app_no_first "a" "lias_" (str_of_nat i));
    [|apply str_of_nat_chars].
  rewrite !occurrences_cons, !prefix_cons. cbn [Ascii.eqb Bool.eqb andb plus].
  rewrite (occurrences_app "a" "lias_" F) by reflexivity. rewrite HF.
  cbn [plus].
  rewrite !occurrences_cons, !prefix_cons. cbn [Ascii.eqb Bool.eqb andb plus].
  reflexivity.
Qed.

Lemma alias_selection_body F i rest :
  occurrences "{ id name }" F = 0 →
  occurrences "{ id name }" (alias_selection F i +:+ rest) =
  S (occurrences "{ id name }" rest).
Proof.
  intros HF. unfold alias_selection.
  rewrite !append_assoc.
  rewrite (occurrences_app_no_first "{" _ "alias_") by reflexivity.
  rewrite (occurrences_app_no_first "{" _ (str_of_nat i));
    [|apply str_of_nat_chars].
  rewrite (occurrences_app_no_first "{" _ ": ") by reflexivity.
  rewrite (occurrences_app "{" _ F) by reflexivity. rewrite HF.
  cbn [String.append plus].
  rewrite !occurrences_cons, !prefix_cons, !prefix_empty.
  cbn [Ascii.eqb Bool.eqb andb plus]. reflexivity.
Qed.

Lemma alias_query_unfold F n :
  alias_query F n =
  "query {" +:+ String.concat " " (alias_selection F <$> range n) +:+ "}".
Proof. reflexivity. Qed.

Lemma length_range n : length (range n) = Z.to_nat n.
Proof. unfold range. by rewrite length_seq. Qed.

Lemma alias_query_alias_count F n :
  occurrences "alias_" F = 0 →
  occurrences "alias_" (alias_query F n) = Z.to_nat n.
Proof.
  intros HF. rewrite alias_query_unfold.
  rewrite (occurrences_app_no_first "a" _ "query {") by reflexivity.
  rewrite occurrences_concat; [|done|intros; by apply alias_selection_alias].
  rewrite length_range. cbn. lia.
Qed.

Lemma alias_query_body_count F n :
  occurrences "{ id name }" F = 0 →
  occurrences "{ id name }" (alias_query F n) = Z.to_nat n.
Proof.
  intros HF. rewrite alias_query_unfold.
  change ("query {" +:+ ?s) with ("query " +:+ String "{" s).
  rewrite (occurrences_app_no_first "{" _ "query ") by reflexivity.
  rewrite occurrences_cons, prefix_cons.
  replace (String.prefix " id name }"
             (String.concat " " (alias_selection F <$> range n) +:+ "}"))
    with false by (by destruct (range n) as [|x [|y l]]).
  rewrite andb_false_r. cbn [plus].
  rewrite occurrences_concat; [|done|intros; by apply alias_selection_body].
  rewrite length_range. cbn. lia.
Qed.

(** *** The directive query and the duplicate query *)

Lemma include_once rest :
  occurrences "@include(if: true)" ("@include(if: true)" +:+ rest) =
  S (occurrences "@include(if: true)" rest).
Proof.
  rewrite occurrences_at_prefix.
  by rewrite (occurrences_app_no_first "@" _ "include(if: true)").
Qed.

Lemma id_name_once rest :
  occurrences "id name" ("id name" +:+ rest) = S (occurrences "id name" rest).
Proof.
  rewrite occurrences_at_prefix.
  by rewrite (occurrences_app_no_first "i" _ "d name").
Qed.

Lemma directive_query_count F n :
  occurrences "@include(if: true)" F = 0 →
  occurrences "@include(if: true)" (directive_query F n) = Z.to_nat n.
Proof.
  intros HF. unfold directive_query. cbn zeta.
  rewrite (occurrences_app_no_first "@" _ "query { ") by reflexivity.
  rewrite (occurrences_app "@" _ F);
    [|by destruct (range n) as [|x [|y l]]].
  rewrite HF. cbn [String.append plus].
  rewrite occurrences_cons, prefix_cons. cbn [Ascii.eqb Bool.eqb andb plus].
  rewrite occurrences_concat; [|done|intros; apply include_once].
  rewrite length_range. cbn. lia.
Qed.

Lemma duplicate_query_count F n :
  occurrences "id name" F = 0 →
  occurrences "id name" (duplicate_query F n) = Z.to_nat n.
Proof.
  intros HF. unfold duplicate_query. cbn zeta.
  rewrite (occurrences_app_no_first "i" _ "query { ") by reflexivity.
  rewrite (occurrences_app "i" _ F) by reflexivity.
  rewrite HF. cbn [plus].
  rewrite (occurrences_app_no_first "i" _ " { ") by reflexivity.
  rewrite occurrences_concat; [|done|intros; apply id_name_once].
  rewrite length_range. cbn. lia.
Qed.

(** ** The claim about the query builders *)

(** C5 as amended.  For every field name and every [n > 0] the three
    builders return exactly: [query {] the selections
    [alias_i: F { id name }] for [i] from 0 to [n-1] joined by single
    spaces [}]; [query { F ] then [n] times [@include(if: true)] joined by
    single spaces then [ { id name } }]; and [query { F { ] then [n] times
    [id name] joined by single spaces then [ } }].  When the field name
    itself does not contain the text counted, the alias query holds
    [alias_] and [{ id name }] exactly [n] times each, the directive query
    holds [@include(if: true)] exactly [n] times and the duplicate query
    holds [id name] exactly [n] times. *)
Theorem builders_assemble_queries (F : string) (n : Z) :
  (0 < n)%Z →
  (alias_query F n =
     "query {" +:+
     joined (λ i, "alias_" +:+ str_of_nat i +:+ ": " +:+ F +:+ " { id name }")
       (Z.to_nat n) +:+ "}" ∧
   directive_query F n =
     "query { " +:+ F +:+ " " +:+
     joined (λ _, "@include(if: true)") (Z.to_nat n) +:+ " { id name } }" ∧
   duplicate_query F n =
     "query { " +:+ F +:+ " { " +:+
     joined (λ _, "id name") (Z.to_nat n) +:+ " } }") ∧
  (occurrences "alias_" F = 0 →
   Z.of_nat (occurrences "alias_" (alias_query F n)) = n) ∧
  (occurrences "{ id name }" F = 0 →
   Z.of_nat (occurrences "{ id name }" (alias_query F n)) = n) ∧
  (occurrences "@include(if: true)" F = 0 →
   Z.of_nat (occurrences "@include(if: true)" (directive_query F n)) = n) ∧
  (occurrences "id name" F = 0 →
   Z.of_nat (occurrences "id name" (duplicate_query F n)) = n).
Proof.
  intros Hn. split.
  { unfold alias_query, directive_query, duplicate_query, range. cbn zeta.
    by rewrite !concat_joined. }
  repeat split; intros HF.
  - rewrite alias_query_alias_count by done. lia.
  - rewrite alias_query_body_count by done. lia.
  - rewrite directive_query_count by done. lia.
  - rewrite duplicate_query_count by done. lia.
Qed.

(** ** The probing loop *)

Section Run.

Variable net : list request → request → reply.
Variable str_of_value : json → string.
Variable int_of_string : string → option Z.

Lemma send_query_run query s :
  _send_query net query s =
  (send_result (net (posted s) (probe_request (url s) query)),
   add_posted [probe_request (url s) query] s).
Proof.
  unfold _send_query, try_catch, requests_post, probe_request, add_posted.
  rewrite bind_run.
  destruct (net (posted s) _) as [detail|e|text [body|] elapsed|text e elapsed];
    try reflexivity; by destruct e.
Qed.

Lemma probe_exception_safe r : probe_exception r = None ↔ reply_safe r = true.
Proof.
  unfold probe_exception. destruct (reply_safe r); [done|].
  split; [|discriminate]. by destruct r.
Qed.

(** What [probe] does, by the reply: after a safe reply it prints the
    time and, where the reply is flagged, the hint; otherwise it raises,
    and has printed the time only when [_send_query] returned. *)
Lemma probe_run query s :
  let req := probe_request (url s) query in
  let r := net (posted s) req in
  probe net query s =
  match probe_exception r with
  | None => (Ok (), add_lines (probe_lines r) (add_posted [req] s))
  | Some e =>
      (Raise e,
       add_lines (match r with
                  | Response _ _ elapsed => [ResponseTime elapsed]
                  | _ => []
                  end) (add_posted [req] s))
  end.
Proof.
  cbn zeta. unfold probe. rewrite bind_run, send_query_run.
  assert (Hmsg : ∀ (t : Q) c msg s1,
            (print (ResponseTime t) ;;
             detected ← lift (errors_detected JNull (Some (String c msg)));
             if detected : bool
             then print (Text "Errors detected - possible protection in place")
             else mret ()) s1 =
            (Ok (), add_lines [ResponseTime t; hint] s1)).
  { intros t c msg s1. rewrite bind_print, bind_run.
    cbn [lift errors_detected error_truthy String.eqb negb].
    by rewrite print_run, add_lines_app. }
  assert (Hraise : ∀ e s1, (Raise e : res unit, s1) = (Raise e, add_lines [] s1)).
  { intros e s1. by rewrite add_lines_nil. }
  destruct (net (posted s) (probe_request (url s) query))
    as [detail|e|text [body|] elapsed|text e elapsed].
  - apply Hmsg.
  - destruct e; try apply Hraise. apply Hmsg.
  - cbn [send_result]. rewrite bind_print, bind_run.
    unfold errors_detected. cbn [lift error_truthy].
    unfold probe_exception, probe_lines. cbn [reply_safe reported_seconds flagged].
    destruct (Py.truthy body) eqn:Hv; cbn [negb orb].
    + destruct body as [| | | | |m]; try done.
      cbn [Py.get mbind result_bind].
      destruct (Py.truthy (default JNull (m !! "errors"))); [|done].
      by rewrite print_run, add_lines_app.
    + destruct body as [| | | | |m]; try done.
      cbn [Py.truthy] in Hv. apply negb_false_iff, bool_decide_eq_true in Hv.
      subst. by rewrite lookup_empty.
  - apply Hmsg.
  - destruct e; try apply Hraise; apply Hmsg.
Qed.

Lemma probe_after_safe_reply query s :
  reply_safe (net (posted s) (probe_request (url s) query)) = true →
  probe net query s =
  (Ok (),
   add_lines (probe_lines (net (posted s) (probe_request (url s) query)))
     (add_posted [probe_request (url s) query] s)).
Proof.
  intros H. apply probe_exception_safe in H. by rewrite probe_run, H.
Qed.

Lemma posts_print l : posts net (print l) [].
Proof. intros s. by exists [l]. Qed.

Lemma send_all_app endpoint qs1 qs2 log :
  send_all net endpoint (qs1 ++ qs2) log =
  match (send_all net endpoint qs1 log).1 with
  | Ok _ => send_all net endpoint qs2 (send_all net endpoint qs1 log).2
  | Raise _ => send_all net endpoint qs1 log
  end.
Proof.
  revert log. induction qs1 as [|q qs1 IH]; intros log; [done|].
  cbn [app send_all].
  destruct (probe_exception _); [done|apply IH].
Qed.

Lemma posts_seq m1 m2 qs1 qs2 :
  posts net m1 qs1 → posts net m2 qs2 → posts net (m1 ;; m2) (qs1 ++ qs2).
Proof.
  intros H1 H2 s. rewrite bind_run.
  destruct (H1 s) as (ls1 & ->). rewrite send_all_app.
  destruct (send_all net (url s) qs1 (posted s)) as [[[]|e] log1] eqn:Hs1.
  - cbn [fst snd].
    destruct (H2 (State (url s) (testable_fields s) (stdout s ++ ls1) log1))
      as (ls2 & ->).
    cbn [url posted testable_fields stdout].
    exists (ls1 ++ ls2). by rewrite app_assoc.
  - by exists ls1.
Qed.

Lemma posts_for_each {A} (body : A → M unit) (f : A → list string) l :
  (∀ x, posts net (body x) (f x)) → posts net (for_each l body) (flat_map f l).
Proof.
  intros Hbody. induction l as [|x l IH].
  - intros s. exists []. destruct s. cbn. by rewrite app_nil_r.
  - cbn [for_each flat_map]. by apply posts_seq.
Qed.

Lemma posts_probe q : posts net (probe net q) [q].
Proof.
  intros s. rewrite probe_run. cbn [send_all].
  destruct (probe_exception _); eexists; reflexivity.
Qed.

Lemma posts_attacks info n :
  posts net (test_overloading_attacks net str_of_value info n)
        (field_probes str_of_value n info).
Proof.
  unfold test_overloading_attacks, field_probes,
    _test_alias_overloading, _test_directive_overloading, _test_field_duplication.
  apply (posts_seq _ _ [] _ (posts_print _)).
  apply (posts_seq _ _ [] _ (posts_print _)).
  apply (posts_seq _ _ [_] [_; _]).
  { apply (posts_seq _ _ [] [_] (posts_print _)), posts_probe. }
  apply (posts_seq _ _ [_] [_]).
  { apply (posts_seq _ _ [] [_] (posts_print _)), posts_probe. }
  apply (posts_seq _ _ [] [_] (posts_print _)), posts_probe.
Qed.

Lemma posts_loop found n :
  posts net (for_each found (λ info, test_overloading_attacks net str_of_value info n))
        (all_probes str_of_value n found).
Proof. apply posts_for_each. intros info. apply posts_attacks. Qed.

(** *** The log that [send_all] leaves *)

(** [send_all] posts the first [m] queries: all of them when it returns;
    otherwise the last one posted is the one whose probe raised. *)
Lemma send_all_outcome endpoint qs log :
  ∃ m, m ≤ length qs ∧
    (send_all net endpoint qs log).2 =
      log ++ (probe_request endpoint <$> take m qs) ∧
    match (send_all net endpoint qs log).1 with
    | Ok _ => m = length qs
    | Raise e =>
        ∃ q, 0 < m ∧ qs !! (m - 1) = Some q ∧
          probe_exception
            (net (log ++ (probe_request endpoint <$> take (m - 1) qs))
                 (probe_request endpoint q)) = Some e
    end.
Proof.
  revert log. induction qs as [|q0 qs IH]; intros log.
  - exists 0. split; [done|]. split; [cbn; by rewrite app_nil_r|done].
  - cbn [send_all].
    destruct (probe_exception (net log (probe_request endpoint q0))) as [e|] eqn:He.
    + exists 1. split; [cbn; lia|]. split; [cbn; by rewrite take_0|].
      exists q0. split; [lia|]. split; [done|]. cbn. by rewrite app_nil_r.
    + destruct (IH (log ++ [probe_request endpoint q0])) as (m & Hm & -> & Hres).
      exists (S m). split; [cbn; lia|]. split; [cbn; by rewrite <- List.app_assoc|].
      destruct (send_all net endpoint qs _).1 as [[]|e]; [cbn; lia|].
      destruct Hres as (q & Hpos & Hq & Hq').
      exists q. split; [lia|].
      destruct m as [|m]; [lia|].
      cbn [Nat.sub] in Hq, Hq'. rewrite Nat.sub_0_r in Hq, Hq'.
      replace (S (S m) - 1) with (S m) by lia.
      split; [done|]. cbn. by rewrite <- List.app_assoc in Hq'.
Qed.

Lemma send_all_first endpoint q qs log :
  ∃ ext, (send_all net endpoint (q :: qs) log).2 =
         log ++ probe_request endpoint q :: ext.
Proof.
  cbn [send_all]. destruct (probe_exception _).
  - by exists [].
  - destruct (send_all_outcome endpoint qs (log ++ [probe_request endpoint q]))
      as (m & _ & -> & _).
    eexists. by rewrite <- List.app_assoc.
Qed.

(** As long as the replies are safe, [send_all] goes on. *)
Lemma send_all_safe_prefix endpoint qs log m :
  m ≤ length qs →
  (∀ j q, j < m → qs !! j = Some q →
     reply_safe (net (log ++ (probe_request endpoint <$> take j qs))
                     (probe_request endpoint q)) = true) →
  send_all net endpoint qs log =
  send_all net endpoint (drop m qs) (log ++ (probe_request endpoint <$> take m qs)).
Proof.
  revert qs log. induction m as [|m IH]; intros qs log Hm Hsafe.
  - cbn. by rewrite take_0, app_nil_r.
  - destruct qs as [|q qs]; [cbn in Hm; lia|].
    cbn [send_all drop take fmap list_fmap].
    pose proof (Hsafe 0 q ltac:(lia) eq_refl) as H0.
    rewrite take_0 in H0. cbn in H0. rewrite app_nil_r in H0.
    apply probe_exception_safe in H0. rewrite H0.
    rewrite (IH qs (log ++ [probe_request endpoint q])).
    + by rewrite <- List.app_assoc.
    + cbn in Hm. lia.
    + intros j q' Hj Hq'. rewrite <- List.app_assoc.
      apply (Hsafe (S j) q'); [lia|done].
Qed.

Lemma send_all_safe endpoint qs log :
  (∀ j q, qs !! j = Some q →
     reply_safe (net (log ++ (probe_request endpoint <$> take j qs))
                     (probe_request endpoint q)) = true) →
  send_all net endpoint qs log = (Ok (), log ++ (probe_request endpoint <$> qs)).
Proof.
  intros Hsafe.
  rewrite (send_all_safe_prefix endpoint qs log (length qs)) by (done || eauto).
  by rewrite drop_all, firstn_all.
Qed.

(** *** The introspection step *)

Lemma analyze_schema_frame schema s :
  ∃ new ls, (_analyze_schema schema s).2 = add_lines ls (add_fields new s).
Proof.
  unfold _analyze_schema. rewrite bind_run. cbn [lift].
  destruct (Py.getitem schema "types") as [types|e];
    [|exists [], []; by rewrite add_fields_nil, add_lines_nil].
  rewrite bind_run. cbn [lift].
  destruct (Py.iter types) as [items|e];
    [|exists [], []; by rewrite add_fields_nil, add_lines_nil].
  rewrite bind_run.
  destruct (for_each_appends analyze_type (λ _, True)) with (l := items) (s := s)
    as (new & H & _).
  { intros x s1. destruct (analyze_type_appends x s1) as (new & ? & _).
    exists new. split; [done|]. by apply Forall_true. }
  destruct (for_each items analyze_type s) as [[[]|e] s1]; cbn in H; subst s1.
  - rewrite !bind_print, bind_get_fields, report_fields_lines, !add_lines_app.
    by eexists _, _.
  - exists new, []. by rewrite add_lines_nil.
Qed.

Lemma introspection_body_frame s :
  ∃ new ls,
    (introspection_body net s).2 =
    add_lines ls (add_fields new (add_posted [introspection_request (url s)] s)).
Proof.
  set (s1 := add_posted [introspection_request (url s)] s).
  assert (Hid : s1 = add_lines [] (add_fields [] s1))
    by by rewrite add_fields_nil, add_lines_nil.
  unfold introspection_body. rewrite bind_run.
  unfold requests_post. fold (introspection_request (url s)).
  change (State (url s) (testable_fields s) (stdout s)
            (posted s ++ [introspection_request (url s)])) with s1.
  destruct (net (posted s) (introspection_request (url s)))
    as [detail|e|text body elapsed|text e elapsed];
    [by exists [], []|by exists [], []| |by exists [], []].
  rewrite bind_run. cbn [lift].
  destruct (response_json (text, parsed body, elapsed)) as [result|e];
    [|by exists [], []].
  rewrite bind_run. cbn [lift].
  destruct (Py.contains "data" result) as [has_data|e]; [|by exists [], []].
  rewrite bind_run.
  assert (∃ r, (if has_data
                then data ← lift (Py.getitem result "data");
                     lift (Py.contains "__schema" data)
                else mret false) s1 = (r, s1)) as [r ->].
  { destruct has_data; [|by eexists]. rewrite bind_run. cbn [lift].
    destruct (Py.getitem result "data"); by eexists. }
  destruct r as [[]|e]; [| |by exists [], []].
  - rewrite bind_print, bind_run. cbn [lift].
    destruct (Py.getitem result "data") as [data|e];
      [|exists [], [Text (nl +:+ "✅ Introspection is ENABLED!")];
        by rewrite add_fields_nil].
    rewrite bind_run. cbn [lift].
    destruct (Py.getitem data "__schema") as [schema|e];
      [|exists [], [Text (nl +:+ "✅ Introspection is ENABLED!")];
        by rewrite add_fields_nil].
    rewrite bind_run.
    destruct (analyze_schema_frame schema
                (add_lines [Text (nl +:+ "✅ Introspection is ENABLED!")] s1))
      as (new & ls & H).
    destruct (_analyze_schema schema _) as [[[]|e] s2]; cbn [snd] in *; subst s2.
    + exists new, (Text (nl +:+ "✅ Introspection is ENABLED!") :: ls).
      unfold add_lines, add_fields. cbn. by rewrite <- List.app_assoc.
    + exists new, (Text (nl +:+ "✅ Introspection is ENABLED!") :: ls).
      unfold add_lines, add_fields. cbn. by rewrite <- List.app_assoc.
  - rewrite bind_print. eexists [], _. by rewrite add_fields_nil.
Qed.

Lemma introspection_body_posted s r s1 :
  introspection_body net s = (r, s1) →
  posted s1 = posted s ++ [introspection_request (url s)] ∧ url s1 = url s.
Proof.
  intros H. destruct (introspection_body_frame s) as (new & ls & Hs).
  rewrite H in Hs. cbn [snd] in Hs. by subst s1.
Qed.

Lemma test_introspection_run s :
  test_introspection net s =
  match introspection_body net s with
  | (Ok b, s1) => (Ok b, s1)
  | (Raise e, s1) => (Ok false, add_lines [IntrospectionError e] s1)
  end.
Proof.
  unfold test_introspection, try_catch.
  by destruct (introspection_body net s) as [[b|e] s1].
Qed.

Lemma run_unfold endpoint n :
  run net str_of_value endpoint n =
  match test_introspection net (started endpoint) with
  | (Ok true, s1) =>
      for_each (testable_fields s1)
        (λ info, test_overloading_attacks net str_of_value info n)
        (add_lines [Text (nl +:+ "Starting vulnerability tests...")] s1)
  | (Ok false, s1) =>
      (Ok (),
       add_lines
         [Text (nl +:+ "Cannot proceed with testing - introspection is disabled")] s1)
  | (Raise e, s1) => (Raise e, s1)
  end.
Proof.
  unfold run. rewrite bind_print, bind_run.
  change (add_lines _ (initial endpoint)) with (started endpoint).
  by destruct (test_introspection net (started endpoint)) as [[[]|e] s1].
Qed.

Lemma test_introspection_posted s b s1 :
  test_introspection net s = (Ok b, s1) →
  posted s1 = posted s ++ [introspection_request (url s)] ∧ url s1 = url s.
Proof.
  rewrite test_introspection_run.
  destruct (introspection_body net s) as [[b'|e] s2] eqn:Hb;
    intros [= <- <-]; by destruct (introspection_body_posted _ _ _ Hb).
Qed.

Lemma test_introspection_returns s :
  ∃ b s1, test_introspection net s = (Ok b, s1).
Proof.
  rewrite test_introspection_run.
  destruct (introspection_body net s) as [[b|e] s1]; by eexists _, _.
Qed.

(** A run in which introspection is enabled: the result and the log are
    those of [send_all] on the planned probes, and the list of fields is
    the one introspection left. *)
Lemma run_enabled endpoint n s1 :
  test_introspection net (started endpoint) = (Ok true, s1) →
  ∃ ls,
    run net str_of_value endpoint n =
    ((send_all net endpoint (all_probes str_of_value n (testable_fields s1))
        [introspection_request endpoint]).1,
     State endpoint (testable_fields s1) (stdout s1 ++ ls)
       (send_all net endpoint (all_probes str_of_value n (testable_fields s1))
          [introspection_request endpoint]).2).
Proof.
  intros Hi. rewrite run_unfold, Hi.
  destruct (test_introspection_posted _ _ _ Hi) as [Hp Hu]. cbn in Hp, Hu.
  destruct (posts_loop (testable_fields s1) n
              (add_lines [Text (nl +:+ "Starting vulnerability tests...")] s1))
    as (ls & ->).
  cbn [url posted testable_fields stdout add_lines]. rewrite Hp, Hu.
  exists (Text (nl +:+ "Starting vulnerability tests...") :: ls).
  by rewrite <- List.app_assoc.
Qed.

(** A run in which it is not: nothing but the introspection request is
    posted. *)
Lemma run_disabled endpoint n s1 :
  test_introspection net (started endpoint) = (Ok false, s1) →
  run net str_of_value endpoint n =
  (Ok (),
   State endpoint (testable_fields s1)
     (stdout s1 ++
      [Text (nl +:+ "Cannot proceed with testing - introspection is disabled")])
     [introspection_request endpoint]).
Proof.
  intros Hi. rewrite run_unfold, Hi.
  destruct (test_introspection_posted _ _ _ Hi) as [Hp Hu]. cbn in Hp, Hu.
  unfold add_lines. by rewrite Hp, Hu.
Qed.

Lemma body_after_reply s text body elapsed :
  net (posted s) (introspection_request (url s)) = Response text body elapsed →
  introspection_body net s =
  (result ← lift (response_json (text, parsed body, elapsed));
   has_data ← lift (Py.contains "data" result);
   has_schema ←
     (if has_data : bool then
        data ← lift (Py.getitem result "data");
        lift (Py.contains "__schema" data)
      else mret false);
   if has_schema : bool then
     print (Text (nl +:+ "✅ Introspection is ENABLED!")) ;;
     data ← lift (Py.getitem result "data");
     schema ← lift (Py.getitem data "__schema");
     _analyze_schema schema ;;
     mret true
   else
     print (Text (nl +:+ "❌ Introspection appears to be DISABLED")) ;;
     mret false)
    (add_posted [introspection_request (url s)] s).
Proof.
  intros H. unfold introspection_body. rewrite bind_run.
  unfold requests_post. fold (introspection_request (url s)). by rewrite H.
Qed.

Lemma body_no_schema s text result elapsed :
  net (posted s) (introspection_request (url s)) =
    Response text (Some (JObj result)) elapsed →
  (result !! "data" = None ∨
   ∃ data, result !! "data" = Some (JObj data) ∧ data !! "__schema" = None) →
  introspection_body net s =
  (Ok false,
   add_lines [Text (nl +:+ "❌ Introspection appears to be DISABLED")]
     (add_posted [introspection_request (url s)] s)).
Proof.
  intros H Hlack. rewrite (body_after_reply _ _ _ _ H).
  cbn [response_json fst snd parsed]. rewrite bind_lift_ok.
  cbn [Py.contains]. rewrite bind_lift_ok.
  destruct Hlack as [Hd|(data & Hd & Hs)]; rewrite Hd.
  - rewrite bool_decide_eq_false_2 by (by intros [? ?]). reflexivity.
  - rewrite bool_decide_eq_true_2 by by eexists.
    rewrite bind_run. cbn [Py.getitem]. rewrite Hd, bind_lift_ok.
    cbn [lift Py.contains]. rewrite Hs.
    rewrite bool_decide_eq_false_2 by (by intros [? ?]). reflexivity.
Qed.

(** The ways the claim names in which the introspection step raises,
    and the exceptions of [requests.post] and [response.json()] of any
    other class. *)
Lemma body_transport_failure s detail :
  net (posted s) (introspection_request (url s)) = TransportFailure detail →
  introspection_body net s =
  (Raise (RequestException detail), add_posted [introspection_request (url s)] s).
Proof.
  intros H. unfold introspection_body. rewrite bind_run.
  unfold requests_post. fold (introspection_request (url s)). by rewrite H.
Qed.

Lemma body_post_raises s e :
  net (posted s) (introspection_request (url s)) = PostRaises e →
  introspection_body net s =
  (Raise e, add_posted [introspection_request (url s)] s).
Proof.
  intros H. unfold introspection_body. rewrite bind_run.
  unfold requests_post. fold (introspection_request (url s)). by rewrite H.
Qed.

Lemma body_json_raises s text e elapsed :
  net (posted s) (introspection_request (url s)) = JsonRaises text e elapsed →
  introspection_body net s =
  (Raise e, add_posted [introspection_request (url s)] s).
Proof.
  intros H. unfold introspection_body. rewrite bind_run.
  unfold requests_post. fold (introspection_request (url s)). by rewrite H.
Qed.

Lemma body_data_null s text result elapsed :
  net (posted s) (introspection_request (url s)) =
    Response text (Some (JObj result)) elapsed →
  result !! "data" = Some JNull →
  introspection_body net s =
  (Raise TypeError, add_posted [introspection_request (url s)] s).
Proof.
  intros H Hd. rewrite (body_after_reply _ _ _ _ H).
  cbn [response_json fst snd parsed]. rewrite bind_lift_ok.
  cbn [Py.contains]. rewrite bind_lift_ok, Hd.
  rewrite bool_decide_eq_true_2 by by eexists.
  rewrite bind_run. cbn [Py.getitem]. by rewrite Hd, bind_lift_ok.
Qed.

Lemma analyze_nameless_type ti s :
  ti !! "name" = None → analyze_type (JObj ti) s = (Raise (KeyError "name"), s).
Proof. intros H. unfold analyze_type. cbn [Py.getitem]. by rewrite H. Qed.

Lemma for_each_app {A} (l1 l2 : list A) body s :
  for_each (l1 ++ l2) body s =
  match for_each l1 body s with
  | (Ok _, s') => for_each l2 body s'
  | (Raise e, s') => (Raise e, s')
  end.
Proof.
  revert s. induction l1 as [|x l1 IH]; intros s; [done|].
  cbn [app]. rewrite !for_each_cons.
  destruct (body x s) as [[[]|e] s1]; [apply IH|done].
Qed.

Lemma body_type_without_name s text result data sch good ti rest elapsed :
  net (posted s) (introspection_request (url s)) =
    Response text (Some (JObj result)) elapsed →
  result !! "data" = Some (JObj data) →
  data !! "__schema" = Some (JObj sch) →
  sch !! "types" = Some (JList (good ++ JObj ti :: rest)) →
  Forall type_ok good →
  ti !! "name" = None →
  introspection_body net s =
  (Raise (KeyError "name"),
   add_fields (expected_fields good)
     (add_lines [Text (nl +:+ "✅ Introspection is ENABLED!")]
        (add_posted [introspection_request (url s)] s))).
Proof.
  intros H Hd Hs Ht Hgood Hn. rewrite (body_after_reply _ _ _ _ H).
  cbn [response_json fst snd parsed]. rewrite bind_lift_ok.
  cbn [Py.contains]. rewrite bind_lift_ok, Hd.
  rewrite bool_decide_eq_true_2 by by eexists.
  rewrite bind_run. cbn [Py.getitem]. rewrite Hd, bind_lift_ok.
  cbn [lift Py.contains]. rewrite Hs.
  rewrite bool_decide_eq_true_2 by by eexists.
  rewrite bind_print, bind_lift_ok. cbn [Py.getitem].
  rewrite Hs, bind_lift_ok, bind_run.
  rewrite (analyze_schema_loops _ _ _ Ht), for_each_app.
  rewrite (analyze_types_ok _ _ Hgood), for_each_cons.
  by rewrite (analyze_nameless_type _ _ Hn).
Qed.

Lemma length_all_probes n found :
  length (all_probes str_of_value n found) = 3 * length found.
Proof.
  unfold all_probes. induction found as [|x l IH]; [done|].
  cbn [flat_map length field_probes app]. rewrite IH. lia.
Qed.

(** ** The claims about the run *)

Lemma log_before_S endpoint plan k q :
  plan !! k = Some q →
  log_before endpoint plan (S k) =
  log_before endpoint plan k ++ [probe_request endpoint q].
Proof.
  intros H. unfold log_before.
  by rewrite (take_S_r _ _ _ H), fmap_app.
Qed.

Lemma log_before_all endpoint plan :
  log_before endpoint plan (length plan) =
  introspection_request endpoint :: (probe_request endpoint <$> plan).
Proof. unfold log_before. by rewrite firstn_all. Qed.



(** C7 as amended.  [_send_query] posts one request and, for every
    exception that its two clauses name, returns one of three results:
    after a transport failure ([RequestException]) no body ([None]), the
    time 0 and "Request error: " followed by the failure's text; after a
    response that is not JSON ([JSONDecodeError]) no body, the measured
    time and "Invalid JSON response: " followed by the raw body;
    otherwise the parsed body, the measured time and no message.  An
    exception of any other class, raised by [requests.post] or by
    [response.json()], is passed on. *)
Theorem send_query_three_outcomes (query : string) (s : state) :
  let req := Request (url s) query None headers in
  let failure detail : res (json * Q * option string) :=
    Ok (JNull, 0%Q, Some ("Request error: " +:+ detail)) in
  let not_json text elapsed : res (json * Q * option string) :=
    Ok (JNull, elapsed, Some ("Invalid JSON response: " +:+ text)) in
  _send_query net query s =
  (match net (posted s) req with
   | TransportFailure detail => failure detail
   | PostRaises (RequestException detail) => failure detail
   | PostRaises e => Raise e
   | Response text None elapsed => not_json text elapsed
   | Response text (Some body) elapsed => Ok (body, elapsed, None)
   | JsonRaises text JSONDecodeError elapsed => not_json text elapsed
   | JsonRaises text (RequestException detail) elapsed => failure detail
   | JsonRaises text e elapsed => Raise e
   end,
   State (url s) (testable_fields s) (stdout s) (posted s ++ [req])).
Proof.
  cbn zeta. rewrite send_query_run. unfold probe_request, add_posted.
  destruct (net (posted s) _) as [detail|e|text [body|] elapsed|text e elapsed];
    try done; by destruct e.
Qed.

(** C9 as amended.  Let introspection be enabled, let the probe of index
    [k] of the plan be answered by a transport failure, and let the
    probes before it have had safe replies, so that the run reaches it.
    Then [_send_query], called in the state that probe is sent from,
    returns the failure as the message "Request error: ...", and [probe]
    prints the time 0 and the hint and returns; the run has posted that
    probe and, unless it was the last, the next probe of the plan.  When
    the replies to all later probes are safe as well, every probe of the
    plan is posted and the run ends normally. *)
Theorem transport_failure_does_not_end_run
    (endpoint : string) (n : Z) (s1 : state) (k : nat) (q detail : string) :
  let plan := all_probes str_of_value n (testable_fields s1) in
  let reply j qj := net (log_before endpoint plan j) (probe_request endpoint qj) in
  let r := run net str_of_value endpoint n in
  test_introspection net (started endpoint) = (Ok true, s1) →
  plan !! k = Some q →
  (∀ j qj, j < k → plan !! j = Some qj → reply_safe (reply j qj) = true) →
  reply k q = TransportFailure detail →
  (∀ s, url s = endpoint → posted s = log_before endpoint plan k →
     _send_query net q s =
       (Ok (JNull, 0%Q, Some ("Request error: " +:+ detail)),
        add_posted [probe_request endpoint q] s) ∧
     probe net q s =
       (Ok (), add_lines [ResponseTime 0; hint]
                 (add_posted [probe_request endpoint q] s))) ∧
  log_before endpoint plan (S k) `prefix_of` posted r.2 ∧
  (∀ q', plan !! S k = Some q' →
     log_before endpoint plan (S (S k)) `prefix_of` posted r.2) ∧
  ((∀ j qj, k < j → plan !! j = Some qj → reply_safe (reply j qj) = true) →
   r.1 = Ok () ∧ posted r.2 = log_before endpoint plan (length plan)).
Proof.
  cbn zeta. intros Hi Hq Hbefore Hfail. cbv beta in Hbefore, Hfail |- *.
  set (plan := all_probes str_of_value n (testable_fields s1)) in *.
  assert (Hk : S k ≤ length plan) by (apply lookup_lt_Some in Hq; lia).
  assert (Hupto : ∀ j qj, j < S k → plan !! j = Some qj →
            reply_safe (net ([introspection_request endpoint] ++
                               (probe_request endpoint <$> take j plan))
                            (probe_request endpoint qj)) = true).
  { intros j qj Hj Hqj. destruct (decide (j = k)) as [->|Hne].
    - rewrite Hq in Hqj. injection Hqj as <-.
      change (reply_safe (net (log_before endpoint plan k)
                              (probe_request endpoint q)) = true).
      by rewrite Hfail.
    - apply (Hbefore j qj); [lia|done]. }
  destruct (run_enabled endpoint n s1 Hi) as (ls & Hrun). fold plan in Hrun.
  rewrite (send_all_safe_prefix endpoint plan _ (S k) Hk Hupto) in Hrun.
  change ([introspection_request endpoint] ++
          (probe_request endpoint <$> take (S k) plan))
    with (log_before endpoint plan (S k)) in Hrun.
  rewrite Hrun. cbn [fst snd posted].
  split; [|split; [|split]].
  - intros s Hu Hs. rewrite probe_run, send_query_run, Hu, Hs.
    rewrite Hfail. by cbn.
  - destruct (send_all_outcome endpoint (drop (S k) plan)
                (log_before endpoint plan (S k))) as (m & _ & -> & _).
    by apply prefix_app_r.
  - intros q' Hq'. rewrite (drop_S _ _ _ Hq').
    destruct (send_all_first endpoint q' (drop (S (S k)) plan)
                (log_before endpoint plan (S k))) as (ext & ->).
    rewrite (log_before_S _ _ _ _ Hq').
    exists ext. by rewrite <- List.app_assoc.
  - intros Hafter.
    assert (Hall : ∀ j qj, plan !! j = Some qj →
              reply_safe (net ([introspection_request endpoint] ++
                                 (probe_request endpoint <$> take j plan))
                              (probe_request endpoint qj)) = true).
    { intros j qj Hqj. destruct (decide (j < S k)) as [Hj|Hj].
      - by apply Hupto.
      - apply (Hafter j qj); [lia|done]. }
    change (log_before endpoint plan (S k))
      with ([introspection_request endpoint] ++
            (probe_request endpoint <$> take (S k) plan)).
    rewrite <- (send_all_safe_prefix endpoint plan _ (S k) Hk Hupto).
    rewrite (send_all_safe endpoint plan _ Hall).
    by rewrite log_before_all.
Qed.

(** C10.  If the [try] block of [test_introspection] raises an
    exception, whichever it is ([body_transport_failure],
    [body_data_null] and [body_type_without_name] are three ways), the
    method prints the error and returns [False]; the run then prints that
    it cannot proceed and ends, having posted the introspection request
    and nothing else; the fields appended before the exception are still
    in the list. *)
Theorem introspection_exception_is_trapped
    (endpoint : string) (n : Z) (e : exn) (s1 : state) :
  introspection_body net (started endpoint) = (Raise e, s1) →
  test_introspection net (started endpoint) =
    (Ok false, add_lines [IntrospectionError e] s1) ∧
  run net str_of_value endpoint n =
    (Ok (),
     State endpoint (testable_fields s1)
       (stdout s1 ++
        [ IntrospectionError e;
          Text (nl +:+ "Cannot proceed with testing - introspection is disabled") ])
       [ introspection_request endpoint ]).
Proof.
  intros H. rewrite run_unfold, test_introspection_run, H.
  split; [done|].
  destruct (introspection_body_posted _ _ _ H) as [Hp Hu]. cbn in Hp, Hu.
  unfold add_lines. cbn. by rewrite Hp, Hu, <- List.app_assoc.
Qed.

End Run.

(** * Further properties *)

(** ** Type references of GraphQL *)

Lemma resolves_named t k x :
  t !! "kind" = Some (JStr k) → k ≠ "NON_NULL" →
  resolves (JObj t) x ↔ k = x.
Proof.
  intros Hk Hne. split.
  - inversion 1; subst; congruence.
  - intros <-. by constructor.
Qed.

Lemma resolves_wrapped t u x :
  t !! "kind" = Some (JStr "NON_NULL") → t !! "ofType" = Some u →
  resolves (JObj t) x ↔ resolves u x.
Proof.
  intros Hk Hu. split.
  - inversion 1; subst; congruence.
  - intros H. by eapply resolves_under.
Qed.

Lemma has_kind_named t k :
  t !! "kind" = Some (JStr k) → has_kind t = true ↔ k = "OBJECT" ∨ k = "LIST".
Proof.
  intros Hk. rewrite has_kind_spec. unfold kind_is. rewrite Hk.
  split; intros [H|H]; (left + right); congruence.
Qed.

(** X1.  On a type reference shaped as GraphQL shapes them, looking one
    level under [ofType] is enough: [is_object] returns true exactly when
    the kind reached through the [NON_NULL] wrappers is OBJECT or
    LIST. *)
Theorem one_unwrap_suffices (t : gmap string json) :
  graphql_type_ref t →
  ∃ b : bool,
    is_object (JObj t) = Ok b ∧
    (b = true ↔ resolves (JObj t) "OBJECT" ∨ resolves (JObj t) "LIST").
Proof.
  intros (k & Hk & [(-> & u & k' & Hu & Hk' & Hne)|[->|(Hn & Hl & Hof)]]).
  - exists (has_kind u). split.
    + rewrite is_object_shaped.
      * unfold spec_testableb. rewrite Hu.
        replace (has_kind t) with false; [done|].
        unfold has_kind. by rewrite Hk.
      * right. unfold oftype_shaped. rewrite Hu. right. by eexists.
    + rewrite (has_kind_named _ _ Hk'), !(resolves_wrapped _ _ _ Hk Hu).
      by rewrite !(resolves_named _ _ _ Hk' Hne).
  - exists true. split.
    + unfold is_object. cbn [Py.get]. by rewrite Hk.
    + split; [|done]. intros _. right. by constructor.
  - exists (has_kind t). split.
    + rewrite is_object_shaped.
      * unfold spec_testableb. destruct Hof as [->| ->]; by rewrite orb_false_r.
      * right. unfold oftype_shaped. destruct Hof as [->| ->]; [done|by left].
    + by rewrite (has_kind_named _ _ Hk), !(resolves_named _ _ _ Hk Hn).
Qed.

(** ** Keys the analyzer does not read *)

Lemma analyze_field_by_name type_info type_info' field s :
  Py.getitem type_info "name" = Py.getitem type_info' "name" →
  analyze_field type_info field s = analyze_field type_info' field s.
Proof. intros H. unfold analyze_field. by rewrite H. Qed.

Lemma for_each_ext {A} (body body' : A → M unit) l s :
  (∀ x s, body x s = body' x s) → for_each l body s = for_each l body' s.
Proof.
  intros H. revert s. induction l as [|x l IH]; intros s; [done|].
  rewrite !for_each_cons, H. by destruct (body' x s) as [[[]|e] s1].
Qed.

(** X2.  The analyzer reads [name] and [fields] of a type, [name] and
    [type] of a field, [kind] and [ofType] of a type reference, and
    nothing else: setting any other key, to any value, changes neither
    the result nor the state reached.  Descriptions, arguments and
    deprecation marks have no part in the choice of fields. *)
Theorem other_keys_ignored (k : string) (v : json) :
  (∀ t, k ≠ "kind" → k ≠ "ofType" →
     is_object (JObj (<[k := v]> t)) = is_object (JObj t)) ∧
  (∀ type_info f s, k ≠ "name" → k ≠ "type" →
     analyze_field type_info (JObj (<[k := v]> f)) s =
     analyze_field type_info (JObj f) s) ∧
  (∀ ti s, k ≠ "name" → k ≠ "fields" →
     analyze_type (JObj (<[k := v]> ti)) s = analyze_type (JObj ti) s).
Proof.
  split; [|split].
  - intros t H1 H2. unfold is_object. cbn [Py.get].
    by rewrite !lookup_insert_ne.
  - intros type_info f s H1 H2. unfold analyze_field. cbn [Py.get Py.getitem].
    by rewrite !lookup_insert_ne.
  - intros ti s H1 H2. unfold analyze_type. cbn [Py.get Py.getitem].
    rewrite !lookup_insert_ne by done.
    destruct (ti !! "name") as [nm|]; [|done].
    rewrite !bind_lift_ok.
    destruct (Py.startswith nm "__") as [[]|]; [done| |done].
    rewrite !bind_lift_ok.
    destruct (Py.truthy (default JNull (ti !! "fields"))); [|done].
    destruct (ti !! "fields") as [fs|]; [|done].
    rewrite !bind_lift_ok.
    destruct (Py.iter fs) as [items|]; [|done].
    rewrite !bind_lift_ok.
    apply for_each_ext. intros x s1. apply analyze_field_by_name.
    cbn [Py.getitem]. by rewrite lookup_insert_ne.
Qed.

(** ** More on the query builders *)

Lemma range_nonpositive n : (n ≤ 0)%Z → range n = [].
Proof. intros H. unfold range. by replace (Z.to_nat n) with 0 by lia. Qed.

(** X3.  An iteration count of zero or less is not refused: the builders
    then repeat nothing.  The alias query is [query {}] and does not
    mention the field at all; the directive query selects the field
    without a directive, and the duplicate query selects it with an empty
    body. *)
Theorem builders_without_repetition (F : string) (n : Z) :
  (n ≤ 0)%Z →
  alias_query F n = "query {}" ∧
  directive_query F n = "query { " +:+ F +:+ "  { id name } }" ∧
  duplicate_query F n = "query { " +:+ F +:+ " {  } }".
Proof.
  intros H. unfold alias_query, directive_query, duplicate_query.
  by rewrite (range_nonpositive n H).
Qed.






Lemma length_append a b :
  String.length (a +:+ b) = String.length a + String.length b.
Proof. induction a as [|x a IH]; cbn; [done|by rewrite IH]. Qed.

Lemma length_concat_space l :
  String.length (String.concat " " l) = total_length l + (length l - 1).
Proof.
  induction l as [|x l IH]; [done|].
  destruct l as [|y l].
  - cbn. lia.
  - change (String.concat " " (x :: y :: l))
      with (x +:+ " " +:+ String.concat " " (y :: l)).
    rewrite !length_append, IH. cbn. lia.
Qed.

Lemma total_length_const {A} (f : A → string) c l :
  (∀ x, String.length (f x) = c) → total_length (f <$> l) = length l * c.
Proof.
  intros H. induction l as [|x l IH]; [done|]. cbn. rewrite H.
  unfold total_length in IH. rewrite IH. lia.
Qed.

Lemma total_length_least {A} (f : A → string) c l :
  (∀ x, c ≤ String.length (f x)) → length l * c ≤ total_length (f <$> l).
Proof.
  intros H. induction l as [|x l IH]; [done|]. cbn.
  specialize (H x). unfold total_length in IH. lia.
Qed.

Lemma str_of_nat_nonempty i : 1 ≤ String.length (str_of_nat i).
Proof.
  unfold str_of_nat.
  destruct (Nat.to_uint i) eqn:H; cbn; try lia.
  (* [Nat.to_uint] never gives the empty numeral *)
  pose proof (f_equal Nat.of_uint H) as H0.
  rewrite DecimalNat.Unsigned.of_to in H0. subst i. discriminate H.
Qed.

(** X5.  The size of the queries, in characters, for [n > 0]: the
    directive query has 19 for each repetition and 22 besides the field
    name, the duplicate query 8 for each repetition and 14 besides the
    field name; the alias query has, for each repetition, at least the
    field name and 22 more. *)
Theorem query_sizes (F : string) (n : Z) :
  (0 < n)%Z →
  String.length (directive_query F n) = String.length F + 19 * Z.to_nat n + 22 ∧
  String.length (duplicate_query F n) = String.length F + 8 * Z.to_nat n + 14 ∧
  (String.length F + 22) * Z.to_nat n + 7 ≤ String.length (alias_query F n).
Proof.
  intros Hn. unfold directive_query, duplicate_query, alias_query. cbn zeta.
  rewrite !length_append, !length_concat_space, !length_fmap, !length_range.
  rewrite (total_length_const (λ _, "@include(if: true)") 18) by done.
  rewrite (total_length_const (λ _, "id name") 7) by done.
  pose proof (total_length_least
                (λ i, "alias_" +:+ str_of_nat i +:+ ": " +:+ F +:+ " { id name }")
                (String.length F + 21) (range n)) as Hal.
  rewrite length_range in *. cbn [String.length].
  split; [lia|]. split; [lia|].
  assert (Hparts : ∀ i, String.length F + 21 ≤
            String.length ("alias_" +:+ str_of_nat i +:+ ": " +:+ F +:+ " { id name }")).
  { intros i. rewrite !length_append. cbn [String.length].
    pose proof (str_of_nat_nonempty i). lia. }
  specialize (Hal Hparts). nia.
Qed.

Section RunMore.

Variable net : list request → request → reply.
Variable str_of_value : json → string.
Variable int_of_string : string → option Z.

(** ** One probe *)

(** X6.  What [probe] does, by the reply to its request.  The request is
    logged in every case.  Whenever [_send_query] returns, the response
    time is printed, 0 after a transport failure; the hint follows after
    a transport failure, after a body that is not JSON and after a JSON
    object with a truthy [errors]; a falsy JSON value gives no hint;
    after a JSON value that is truthy without being an object the hint
    check raises once the time has been printed.  Where [requests.post]
    or [response.json()] raises an exception that [_send_query] has no
    clause for, [probe] passes it on and has printed nothing. *)
Theorem probe_by_reply (query : string) (s : state) :
  let req := probe_request (url s) query in
  let s' := add_posted [req] s in
  let failure : res unit * state := (Ok (), add_lines [ResponseTime 0; hint] s') in
  let not_json elapsed : res unit * state :=
    (Ok (), add_lines [ResponseTime elapsed; hint] s') in
  probe net query s =
  match net (posted s) req with
  | TransportFailure _ => failure
  | PostRaises (RequestException _) => failure
  | PostRaises e => (Raise e, s')
  | Response _ None elapsed => not_json elapsed
  | Response _ (Some (JObj m)) elapsed =>
      (Ok (),
       add_lines (ResponseTime elapsed ::
                  if Py.truthy (default JNull (m !! "errors")) then [hint] else [])
         s')
  | Response _ (Some v) elapsed =>
      (if Py.truthy v then Raise (AttributeError "get") else Ok (),
       add_lines [ResponseTime elapsed] s')
  | JsonRaises _ JSONDecodeError elapsed => not_json elapsed
  | JsonRaises _ (RequestException _) _ => failure
  | JsonRaises _ e _ => (Raise e, s')
  end.
Proof.
  cbn zeta. rewrite probe_run.
  destruct (net (posted s) (probe_request (url s) query))
    as [detail|e|text [body|] elapsed|text e elapsed].
  - done.
  - destruct e; cbn; by rewrite ?add_lines_nil.
  - unfold probe_exception, probe_lines. cbn [reply_safe reported_seconds flagged].
    destruct body as [|b|q|str|l|m]; by destruct (Py.truthy _).
  - done.
  - destruct e; cbn; by rewrite ?add_lines_nil.
Qed.

(** ** The probes of one field and of a run *)

(** X7.  [test_overloading_attacks] posts the alias query of the field,
    then its directive query, then its duplicate query, stopping after
    the first whose probe raises: at least one request and at most
    three, all three when it returns.  It leaves the list of testable
    fields and the URL as they were.  When it ends with an exception,
    that is the exception of the last probe it posted: the one that
    [requests.post] or [response.json()] raised there and [_send_query]
    passed on, or the [AttributeError] of the hint check. *)
Theorem attacks_post_one_to_three (info : field_info) (n : Z) (s : state) :
  let r := test_overloading_attacks net str_of_value info n s in
  let queries :=
    [ alias_query (py_str str_of_value (field_name info)) n;
      directive_query (py_str str_of_value (field_name info)) n;
      duplicate_query (py_str str_of_value (field_name info)) n ] in
  ∃ m, 1 ≤ m ≤ 3 ∧
    posted r.2 = posted s ++ (probe_request (url s) <$> take m queries) ∧
    testable_fields r.2 = testable_fields s ∧
    url r.2 = url s ∧
    match r.1 with
    | Ok _ => m = 3
    | Raise e =>
        ∃ q, queries !! (m - 1) = Some q ∧
          probe_exception
            (net (posted s ++ (probe_request (url s) <$> take (m - 1) queries))
                 (probe_request (url s) q)) = Some e
    end.
Proof.
  cbn zeta. destruct (posts_attacks net str_of_value info n s) as (ls & ->).
  destruct (send_all_outcome net (url s) (field_probes str_of_value n info) (posted s))
    as (m & Hm & HL & Hres).
  exists m. cbn [fst snd posted testable_fields url].
  assert (H1 : 1 ≤ m).
  { destruct (send_all net (url s) _ (posted s)).1 as [[]|e].
    - subst m. cbn. lia.
    - destruct Hres as (q & Hpos & _). lia. }
  split; [split; [done|exact Hm]|].
  split; [exact HL|]. split; [done|]. split; [done|].
  destruct (send_all net (url s) _ (posted s)).1 as [[]|e]; [done|].
  destruct Hres as (q & _ & Hq & He). by exists q.
Qed.

(** X8.  The console and the log after [test_overloading_attacks], when
    the three replies are safe.  Each reply is the endpoint's answer given
    the requests before it, the earlier probes of the same field
    included; after the two header lines come, for each attack in turn,
    its title, the response time and, where the reply is flagged, the
    hint. *)
Theorem attacks_transcript (info : field_info) (n : Z) (s : state) :
  let name := py_str str_of_value (field_name info) in
  let req1 := probe_request (url s) (alias_query name n) in
  let req2 := probe_request (url s) (directive_query name n) in
  let req3 := probe_request (url s) (duplicate_query name n) in
  let r1 := net (posted s) req1 in
  let r2 := net (posted s ++ [req1]) req2 in
  let r3 := net (posted s ++ [req1; req2]) req3 in
  reply_safe r1 = true → reply_safe r2 = true → reply_safe r3 = true →
  test_overloading_attacks net str_of_value info n s =
  (Ok (),
   State (url s) (testable_fields s)
     (stdout s ++
      [ TestingField (type_name info) (field_name info);
        Text "========================================";
        Text (nl +:+ "Testing Alias Overloading...") ] ++ probe_lines r1 ++
      [ Text (nl +:+ "Testing Directive Overloading...") ] ++ probe_lines r2 ++
      [ Text (nl +:+ "Testing Field Duplication...") ] ++ probe_lines r3)
     (posted s ++ [req1; req2; req3])).
Proof.
  destruct s as [u fs out p]. cbn [url posted stdout testable_fields].
  cbn zeta. intros H1 H2 H3.
  unfold test_overloading_attacks,
    _test_alias_overloading, _test_directive_overloading, _test_field_duplication.
  rewrite !bind_print, bind_run, bind_print.
  unfold add_lines; cbn [url posted stdout testable_fields].
  rewrite probe_after_safe_reply by exact H1. cbv beta iota.
  unfold add_lines, add_posted; cbn [url posted stdout testable_fields].
  rewrite bind_run, bind_print.
  unfold add_lines; cbn [url posted stdout testable_fields].
  rewrite probe_after_safe_reply by exact H2. cbv beta iota.
  unfold add_lines, add_posted; cbn [url posted stdout testable_fields].
  rewrite bind_print.
  unfold add_lines; cbn [url posted stdout testable_fields].
  rewrite <- (List.app_assoc p). cbn [app].
  rewrite probe_after_safe_reply by exact H3.
  unfold add_lines, add_posted; cbn [url posted stdout testable_fields].
  f_equal. f_equal; rewrite <- ?List.app_assoc; reflexivity.
Qed.

(** The result and the log of a run, by what introspection found. *)
Lemma run_outcome endpoint n :
  let r := run net str_of_value endpoint n in
  let plan := all_probes str_of_value n (testable_fields r.2) in
  (r.1 = Ok () ∧ posted r.2 = [introspection_request endpoint]) ∨
  (r.1 = (send_all net endpoint plan [introspection_request endpoint]).1 ∧
   posted r.2 = (send_all net endpoint plan [introspection_request endpoint]).2).
Proof.
  cbn zeta.
  destruct (test_introspection_returns net (started endpoint)) as ([] & s1 & Hi).
  - right. by destruct (run_enabled net str_of_value endpoint n s1 Hi) as (ls & ->).
  - left. by rewrite (run_disabled net str_of_value endpoint n s1 Hi).
Qed.

(** X9.  The requests of a run, whatever the endpoint does: the
    introspection request, then an initial part of the planned probes
    (three per testable field, in order), nothing repeated and nothing
    else.  Every request goes to the endpoint given with the three fixed
    headers, and only the first one names an operation.  A run that
    returns has posted no probe or all of them; a run that ends with an
    exception has posted at least one probe, and the exception is that
    of the last probe posted: the one that [requests.post] or
    [response.json()] raised there and [_send_query] passed on, or the
    [AttributeError] of the hint check. *)
Theorem run_posts_planned_prefix (endpoint : string) (n : Z) :
  let r := run net str_of_value endpoint n in
  let plan := all_probes str_of_value n (testable_fields r.2) in
  ∃ m, m ≤ length plan ∧
    length plan = 3 * length (testable_fields r.2) ∧
    posted r.2 =
      introspection_request endpoint ::
      (probe_request endpoint <$> take m plan) ∧
    Forall (λ req, req_url req = endpoint ∧ req_headers req = headers)
      (posted r.2) ∧
    Forall (λ req, req_operationName req = None) (tail (posted r.2)) ∧
    match r.1 with
    | Ok _ => m = 0 ∨ m = length plan
    | Raise e =>
        ∃ q, 0 < m ∧ plan !! (m - 1) = Some q ∧
          probe_exception
            (net (log_before endpoint plan (m - 1)) (probe_request endpoint q)) =
          Some e
    end.
Proof.
  cbn zeta.
  set (r := run net str_of_value endpoint n).
  set (plan := all_probes str_of_value n (testable_fields r.2)).
  assert (Hshape : ∀ m,
            Forall (λ req, req_url req = endpoint ∧ req_headers req = headers)
              (introspection_request endpoint ::
               (probe_request endpoint <$> take m plan)) ∧
            Forall (λ req, req_operationName req = None)
              (probe_request endpoint <$> take m plan)).
  { intros m. split; [constructor; [done|]|];
      apply Forall_fmap, Forall_true; done. }
  destruct (run_outcome endpoint n) as [[Hok Hp]|[Hres Hp]];
    fold r in Hok, Hp || fold r in Hres, Hp; fold plan in Hres, Hp || idtac.
  - exists 0. split; [lia|]. split; [apply length_all_probes|].
    rewrite Hp, Hok, take_0. cbn. repeat split; try done; [|by left].
    by repeat constructor.
  - clearbody r.
    destruct (send_all_outcome net endpoint plan [introspection_request endpoint])
      as (m & Hm & HL & Hlast).
    exists m. split; [done|]. split; [apply length_all_probes|].
    rewrite Hp, HL, Hres. cbn [app tail].
    split; [done|]. destruct (Hshape m) as [H1 H2].
    split; [done|]. split; [done|].
    destruct (send_all net endpoint plan _).1 as [[]|e]; [by right|exact Hlast].
Qed.

(** A run returns, or ends with the exception of its last probe. *)
Lemma run_ends endpoint n :
  let r := run net str_of_value endpoint n in
  r.1 = Ok () ∨
  ∃ e log req,
    r.1 = Raise e ∧
    posted r.2 = (introspection_request endpoint :: log) ++ [req] ∧
    probe_exception (net (introspection_request endpoint :: log) req) = Some e.
Proof.
  cbn zeta.
  set (r := run net str_of_value endpoint n).
  set (plan := all_probes str_of_value n (testable_fields r.2)).
  destruct (run_outcome endpoint n) as [[Hok Hp]|[Hres Hp]]; [by left|].
  fold r in Hres, Hp. fold plan in Hres, Hp. clearbody plan. clearbody r.
  destruct (send_all_outcome net endpoint plan [introspection_request endpoint])
    as (m & Hm & HL & Hlast).
  rewrite Hres, Hp, HL.
  destruct (send_all net endpoint plan _).1 as [[]|e]; [by left|right].
  destruct Hlast as (q & Hpos & Hq & He).
  exists e, (probe_request endpoint <$> take (m - 1) plan), (probe_request endpoint q).
  split; [done|]. split; [|exact He].
  replace m with (S (m - 1)) at 1 by lia.
  by rewrite (take_S_r _ _ _ Hq), fmap_app.
Qed.

(** X10.  How [main] can end.  Without a URL it prints the usage line and
    exits with status 1; with an iteration count that [int] rejects it
    ends with [ValueError]; in both cases nothing else is printed and
    nothing is posted.  Arguments after the iteration count are ignored.
    Otherwise it ends normally, or with the exception of a probe: the
    introspection request and at least that probe have then been posted,
    the probe is the last request, and the exception is the one that
    [requests.post] or [response.json()] raised there and [_send_query]
    passed on, or the [AttributeError] of the hint check. *)
Theorem main_ends (argv0 : string) (args : list string) :
  let r := main net str_of_value int_of_string argv0 args in
  match args with
  | [] => r = (Exited 1, State "" [] [usage argv0] [])
  | endpoint :: rest =>
      r = main net str_of_value int_of_string argv0 (endpoint :: take 1 rest) ∧
      match parse_iterations int_of_string rest with
      | None => r = (Uncaught ValueError, State "" [] [] [])
      | Some n =>
          r.2 = (run net str_of_value endpoint n).2 ∧
          (r.1 = Finished ∨
           ∃ e log req,
             r.1 = Uncaught e ∧
             posted r.2 = (introspection_request endpoint :: log) ++ [req] ∧
             probe_exception (net (introspection_request endpoint :: log) req) =
             Some e)
      end
  end.
Proof.
  cbn zeta. destruct args as [|endpoint rest]; [done|].
  split; [by destruct rest|].
  unfold main. destruct (parse_iterations int_of_string rest) as [n|]; [|done].
  destruct (run_ends endpoint n) as [H|(e & log & req & H & Hp & He)].
  - destruct (run net str_of_value endpoint n) as [[[]|e] s1]; [by split; [|left]|].
    cbn in H. discriminate.
  - destruct (run net str_of_value endpoint n) as [[[]|e'] s1]; [by split; [|left]|].
    cbn in H. injection H as ->. split; [done|]. right. by exists e, log, req.
Qed.

(** X17.  When [test_introspection] returns [True] and every probe of
    the plan is answered by a safe reply, each reply being the
    endpoint's answer given the requests posted before it, the run ends
    normally having posted, after the introspection request, exactly the
    alias, directive and duplicate query of each testable field, fields
    in the order of the list, each query built with the iteration count
    of the command line, which is 100 when none is given. *)
Theorem three_probes_per_field
    (argv0 endpoint : string) (rest : list string) (n : Z) (s1 : state) :
  let plan :=
    flat_map (λ info,
                [ alias_query (py_str str_of_value (field_name info)) n;
                  directive_query (py_str str_of_value (field_name info)) n;
                  duplicate_query (py_str str_of_value (field_name info)) n ])
             (testable_fields s1) in
  parse_iterations int_of_string rest = Some n →
  test_introspection net (started endpoint) = (Ok true, s1) →
  (∀ k q, plan !! k = Some q →
     reply_safe (net (log_before endpoint plan k) (probe_request endpoint q)) = true) →
  parse_iterations int_of_string [] = Some 100%Z ∧
  ∃ final,
    main net str_of_value int_of_string argv0 (endpoint :: rest) = (Finished, final) ∧
    testable_fields final = testable_fields s1 ∧
    posted final = introspection_request endpoint :: (probe_request endpoint <$> plan).
Proof.
  cbn zeta. intros Hn Hi Hsafe. split; [done|].
  unfold main. rewrite Hn.
  destruct (run_enabled net str_of_value endpoint n s1 Hi) as (ls & ->).
  unfold all_probes, field_probes.
  rewrite send_all_safe by exact Hsafe. cbn [fst snd].
  by eexists.
Qed.

(** ** The introspection step *)

Lemma analyze_schema_items sch tv items s :
  sch !! "types" = Some tv → Py.iter tv = Ok items →
  _analyze_schema (JObj sch) s =
  match for_each items analyze_type s with
  | (Ok _, s') => (Ok (), add_lines (analysis_report (testable_fields s')) s')
  | (Raise e, s') => (Raise e, s')
  end.
Proof.
  intros H Hi. unfold _analyze_schema. cbn [Py.getitem]. rewrite H.
  rewrite bind_lift_ok, Hi, bind_lift_ok, bind_run.
  destruct (for_each items analyze_type s) as [[[]|e] s']; [|done].
  rewrite !bind_print, bind_get_fields, report_fields_lines, !add_lines_app.
  reflexivity.
Qed.

(** X11.  Whatever value it is given, [_analyze_schema] leaves the URL and
    the log of requests alone and only appends to the list of testable
    fields.  It prints its report, which covers every field then in the
    list, the ones listed before the call included, only when its loops
    have ended without an exception; otherwise it prints nothing. *)
Theorem analysis_frame (schema : json) (s : state) :
  let r := _analyze_schema schema s in
  url r.2 = url s ∧
  posted r.2 = posted s ∧
  testable_fields s `prefix_of` testable_fields r.2 ∧
  stdout r.2 =
    stdout s ++
    match r.1 with
    | Ok _ =>
        Text (nl +:+ "Testable Fields Found:") :: Text "=====================" ::
        flat_map (λ f, [ FoundField (type_name f) (field_name f);
                         Text "Vulnerable to:";
                         Text "- Alias Overloading";
                         Text "- Directive Overloading";
                         Text "- Field Duplication";
                         Text "---" ])
          (testable_fields r.2)
    | Raise _ => []
    end.
Proof.
  cbn zeta.
  assert (Hsame : ∀ e, let r : res unit * state := (Raise e, s) in
            url r.2 = url s ∧ posted r.2 = posted s ∧
            testable_fields s `prefix_of` testable_fields r.2 ∧
            stdout r.2 = stdout s ++ match r.1 with Ok _ => [] | Raise _ => [] end).
  { intros e. cbn. by rewrite app_nil_r. }
  destruct schema as [| | | | |sch]; try apply (Hsame TypeError).
  destruct (sch !! "types") as [tv|] eqn:Ht.
  2:{ unfold _analyze_schema. cbn [Py.getitem]. rewrite Ht.
      apply (Hsame (KeyError "types")). }
  destruct (Py.iter tv) as [items|e] eqn:Hi.
  2:{ unfold _analyze_schema. cbn [Py.getitem]. rewrite Ht, bind_lift_ok, Hi.
      apply (Hsame e). }
  rewrite (analyze_schema_items _ _ _ _ Ht Hi).
  destruct (for_each_appends analyze_type (λ _, True)) with (l := items) (s := s)
    as (new & H & _).
  { intros x s1. destruct (analyze_type_appends x s1) as (new & ? & _).
    exists new. split; [done|]. by apply Forall_true. }
  destruct (for_each items analyze_type s) as [[[]|e] s1]; cbn in H; subst s1;
    cbn; repeat split; try done; try by apply prefix_app_r.
  by rewrite app_nil_r.
Qed.

(** X12.  [test_introspection] never raises, whatever the endpoint does
    and whatever it sends back: it returns a boolean, has posted exactly
    one request, the introspection query under the operation name
    [IntrospectionQuery], and has only appended to the list of testable
    fields and to the console. *)
Theorem introspection_always_returns (s : state) :
  ∃ (b : bool) (s1 : state) (new : list field_info) (ls : list line),
    test_introspection net s = (Ok b, s1) ∧
    s1 = State (url s) (testable_fields s ++ new) (stdout s ++ ls)
           (posted s ++
            [Request (url s) introspection_query (Some "IntrospectionQuery") headers]).
Proof.
  rewrite test_introspection_run.
  destruct (introspection_body_frame net s) as (new & ls & H).
  destruct (introspection_body net s) as [[b|e] s1]; cbn [snd] in H; subst s1.
  - by exists b,
      (add_lines ls (add_fields new (add_posted [introspection_request (url s)] s))),
      new, ls.
  - exists false,
      (add_lines (ls ++ [IntrospectionError e])
         (add_fields new (add_posted [introspection_request (url s)] s))),
      new, (ls ++ [IntrospectionError e]).
    split; [|done]. by rewrite add_lines_app.
Qed.

Lemma body_enabled s text elapsed result data schema tv items :
  net (posted s) (introspection_request (url s)) =
    Response text (Some (JObj result)) elapsed →
  result !! "data" = Some (JObj data) →
  data !! "__schema" = Some (JObj schema) →
  schema !! "types" = Some tv →
  Py.iter tv = Ok items →
  introspection_body net s =
  match for_each items analyze_type
          (add_lines [Text (nl +:+ "✅ Introspection is ENABLED!")]
             (add_posted [introspection_request (url s)] s)) with
  | (Ok _, s') => (Ok true, add_lines (analysis_report (testable_fields s')) s')
  | (Raise e, s') => (Raise e, s')
  end.
Proof.
  intros H Hd Hs Ht Hi. rewrite (body_after_reply net _ _ _ _ H).
  cbn [response_json fst snd parsed]. rewrite bind_lift_ok.
  cbn [Py.contains]. rewrite bind_lift_ok, Hd.
  rewrite bool_decide_eq_true_2 by by eexists.
  rewrite bind_run. cbn [Py.getitem]. rewrite Hd, bind_lift_ok.
  cbn [lift Py.contains]. rewrite Hs.
  rewrite bool_decide_eq_true_2 by by eexists.
  rewrite bind_print, bind_lift_ok. cbn [Py.getitem].
  rewrite Hs, bind_lift_ok, bind_run.
  rewrite (analyze_schema_items _ _ _ _ Ht Hi).
  by destruct (for_each items analyze_type _) as [[[]|e] s'].
Qed.

(** The shapes of a response on which the [try] block returns [True]. *)
Lemma body_true_inv s s1 :
  introspection_body net s = (Ok true, s1) →
  ∃ text elapsed result data schema tv items,
    net (posted s) (introspection_request (url s)) =
      Response text (Some (JObj result)) elapsed ∧
    result !! "data" = Some (JObj data) ∧
    data !! "__schema" = Some (JObj schema) ∧
    schema !! "types" = Some tv ∧
    Py.iter tv = Ok items.
Proof.
  destruct (net (posted s) (introspection_request (url s)))
    as [detail|e|text body elapsed|text e elapsed] eqn:Hnet.
  { by rewrite (body_transport_failure net _ _ Hnet). }
  { by rewrite (body_post_raises net _ _ Hnet). }
  2:{ by rewrite (body_json_raises net _ _ _ _ Hnet). }
  rewrite (body_after_reply net _ _ _ _ Hnet).
  destruct body as [result|]; [|discriminate].
  cbn [response_json fst snd parsed]. rewrite bind_lift_ok.
  destruct result as [| | |str|l|result]; try discriminate.
  - (* a string: ['data' in result] may hold, [result['data']] raises *)
    cbn [Py.contains]. rewrite bind_lift_ok.
    destruct (Py.is_substring "data" str); discriminate.
  - cbn [Py.contains]. rewrite bind_lift_ok.
    destruct (existsb (Py.is_str "data") l); discriminate.
  - cbn [Py.contains]. rewrite bind_lift_ok.
    destruct (result !! "data") as [d|] eqn:Hd.
    2:{ rewrite bool_decide_eq_false_2 by (by intros [? ?]). discriminate. }
    rewrite bool_decide_eq_true_2 by by eexists.
    rewrite bind_run. cbn [Py.getitem]. rewrite Hd, bind_lift_ok.
    destruct d as [| | |str|l|data]; try discriminate.
    + cbn [lift Py.contains]. destruct (Py.is_substring "__schema" str); discriminate.
    + cbn [lift Py.contains]. destruct (existsb (Py.is_str "__schema") l); discriminate.
    + cbn [lift Py.contains].
      destruct (data !! "__schema") as [sc|] eqn:Hs.
      2:{ rewrite bool_decide_eq_false_2 by (by intros [? ?]). discriminate. }
      rewrite bool_decide_eq_true_2 by by eexists.
      rewrite bind_print, bind_lift_ok. cbn [Py.getitem].
      rewrite Hs, bind_lift_ok, bind_run.
      destruct sc as [| | | | |schema]; try discriminate.
      unfold _analyze_schema. cbn [Py.getitem].
      destruct (schema !! "types") as [tv|] eqn:Ht; [|discriminate].
      rewrite bind_lift_ok.
      destruct (Py.iter tv) as [items|e] eqn:Hi; [|discriminate].
      intros _. by exists text, elapsed, result, data, schema, tv, items.
Qed.

(** X13.  [test_introspection] returns [True] exactly when the endpoint
    answers with a JSON object whose [data] is an object whose
    [__schema] is an object whose [types] can be iterated and hold
    acceptable entries only.  The tester has then printed the ENABLED
    line and the report, listed the testable fields of the types in
    order, and posted the introspection request. *)
Theorem introspection_enabled_iff (s s1 : state) :
  test_introspection net s = (Ok true, s1) ↔
  ∃ text elapsed result data schema tv items,
    net (posted s) (introspection_request (url s)) =
      Response text (Some (JObj result)) elapsed ∧
    result !! "data" = Some (JObj data) ∧
    data !! "__schema" = Some (JObj schema) ∧
    schema !! "types" = Some tv ∧
    Py.iter tv = Ok items ∧
    Forall type_ok items ∧
    s1 = State (url s)
           (testable_fields s ++ expected_fields items)
           (stdout s ++
            Text (nl +:+ "✅ Introspection is ENABLED!") ::
            analysis_report (testable_fields s ++ expected_fields items))
           (posted s ++ [introspection_request (url s)]).
Proof.
  rewrite test_introspection_run. split.
  - destruct (introspection_body net s) as [[[]|e] s'] eqn:Hb; try discriminate.
    intros [= <-].
    destruct (body_true_inv _ _ Hb)
      as (text & elapsed & result & data & schema & tv & items
          & Hnet & Hd & Hs & Ht & Hi).
    exists text, elapsed, result, data, schema, tv, items.
    rewrite (body_enabled _ _ _ _ _ _ _ _ Hnet Hd Hs Ht Hi) in Hb.
    destruct (for_each items analyze_type _) as [[[]|e] s2] eqn:Hl; [|discriminate].
    pose proof (analyze_types_ok_inv _ _ _ Hl) as Hok.
    rewrite (analyze_types_ok _ _ Hok) in Hl.
    injection Hl as <-. injection Hb as <-.
    repeat split; try done.
    unfold add_lines, add_fields, add_posted. cbn. by rewrite <- List.app_assoc.
  - intros (text & elapsed & result & data & schema & tv & items
            & Hnet & Hd & Hs & Ht & Hi & Hok & ->).
    rewrite (body_enabled _ _ _ _ _ _ _ _ Hnet Hd Hs Ht Hi).
    rewrite (analyze_types_ok _ _ Hok).
    unfold add_lines, add_fields, add_posted. cbn. by rewrite <- List.app_assoc.
Qed.

(** X14.  A [__schema] object without [types], or with [types] set to
    [null], is found only after the ENABLED line has been printed: the
    console then shows ENABLED, the error ([KeyError] for the missing
    key, [TypeError] for [null]) and that testing cannot proceed; no
    field is listed and no probe is posted. *)
Theorem schema_without_types
    (endpoint : string) (n : Z) (text : string) (elapsed : Q)
    (result data schema : gmap string json) (e : exn) :
  net [] (introspection_request endpoint) =
    Response text (Some (JObj result)) elapsed →
  result !! "data" = Some (JObj data) →
  data !! "__schema" = Some (JObj schema) →
  (schema !! "types" = None ∧ e = KeyError "types") ∨
  (schema !! "types" = Some JNull ∧ e = TypeError) →
  run net str_of_value endpoint n =
  (Ok (),
   State endpoint []
     [ Text ("Testing GraphQL endpoint: " +:+ endpoint);
       Text (nl +:+ "✅ Introspection is ENABLED!");
       IntrospectionError e;
       Text (nl +:+ "Cannot proceed with testing - introspection is disabled") ]
     [ introspection_request endpoint ]).
Proof.
  intros Hnet Hd Hs Ht. rewrite run_unfold, test_introspection_run.
  rewrite (body_after_reply net (started endpoint) _ _ _ Hnet).
  cbn [response_json fst snd parsed]. rewrite bind_lift_ok.
  cbn [Py.contains]. rewrite bind_lift_ok, Hd.
  rewrite bool_decide_eq_true_2 by by eexists.
  rewrite bind_run. cbn [Py.getitem]. rewrite Hd, bind_lift_ok.
  cbn [lift Py.contains]. rewrite Hs.
  rewrite bool_decide_eq_true_2 by by eexists.
  rewrite bind_print, bind_lift_ok. cbn [Py.getitem].
  rewrite Hs, bind_lift_ok, bind_run.
  unfold _analyze_schema. cbn [Py.getitem].
  by destruct Ht as [[-> ->]|[-> ->]].
Qed.

(** X15.  What a run does with a reply to the introspection request that
    is not a JSON object.  A transport failure, any other exception of
    [requests.post] or [response.json()], a body that is not JSON, and
    the JSON values [null], booleans and numbers are printed as the
    error of the step.  A JSON array or string is searched for ["data"]:
    where it is not found the DISABLED line is printed, where it is found
    the subscript [result['data']] raises [TypeError].  In every case the
    run ends normally with nothing listed and nothing probed. *)
Theorem reply_without_object (endpoint : string) (n : Z) :
  let r := run net str_of_value endpoint n in
  let failed e := r = ends_after_introspection endpoint [IntrospectionError e] in
  let disabled :=
    r = ends_after_introspection endpoint
          [Text (nl +:+ "❌ Introspection appears to be DISABLED")] in
  match net [] (introspection_request endpoint) with
  | TransportFailure detail => failed (RequestException detail)
  | PostRaises e => failed e
  | JsonRaises _ e _ => failed e
  | Response _ None _ => failed JSONDecodeError
  | Response _ (Some (JObj _)) _ => True
  | Response _ (Some (JList l)) _ =>
      if existsb (Py.is_str "data") l then failed TypeError else disabled
  | Response _ (Some (JStr str)) _ =>
      if Py.is_substring "data" str then failed TypeError else disabled
  | Response _ (Some _) _ => failed TypeError
  end.
Proof.
  cbn zeta. rewrite run_unfold, test_introspection_run.
  destruct (net [] (introspection_request endpoint))
    as [detail|e|text body elapsed|text e elapsed] eqn:Hnet.
  { by rewrite (body_transport_failure net (started endpoint) _ Hnet). }
  { by rewrite (body_post_raises net (started endpoint) _ Hnet). }
  2:{ by rewrite (body_json_raises net (started endpoint) _ _ _ Hnet). }
  rewrite (body_after_reply net (started endpoint) _ _ _ Hnet).
  destruct body as [result|]; [|done].
  cbn [response_json fst snd parsed]. rewrite bind_lift_ok.
  destruct result as [| | |str|l|result]; try done.
  - cbn [Py.contains]. rewrite bind_lift_ok.
    by destruct (Py.is_substring "data" str).
  - cbn [Py.contains]. rewrite bind_lift_ok.
    by destruct (existsb (Py.is_str "data") l).
Qed.

End RunMore.

(** ** The analyzer called again *)

(** X16.  The list of testable fields is never reset: a second analysis
    appends after the entries of the first, and its report shows the
    fields of both. *)
Theorem analysis_accumulates
    (sch1 sch2 : gmap string json) (types1 types2 : list json) (s : state) :
  sch1 !! "types" = Some (JList types1) → Forall type_ok types1 →
  sch2 !! "types" = Some (JList types2) → Forall type_ok types2 →
  (_analyze_schema (JObj sch1) ;; _analyze_schema (JObj sch2)) s =
  (Ok (),
   State (url s)
     (testable_fields s ++ expected_fields types1 ++ expected_fields types2)
     (stdout s ++
      analysis_report (testable_fields s ++ expected_fields types1) ++
      analysis_report
        (testable_fields s ++ expected_fields types1 ++ expected_fields types2))
     (posted s)).
Proof.
  intros H1 Hok1 H2 Hok2. rewrite bind_run.
  rewrite (analyze_schema_loops _ _ _ H1), (analyze_types_ok _ _ Hok1).
  rewrite (analyze_schema_loops _ _ _ H2), (analyze_types_ok _ _ Hok2).
  unfold add_lines, add_fields. cbn [url testable_fields stdout posted].
  by rewrite <- !List.app_assoc.
Qed.

(** * Worked inputs *)

(** ** The classification on small inputs *)

Example object_is_testable :
  is_object (type_ref "OBJECT" JNull) = Ok true.
Proof. reflexivity. Qed.

Example scalar_is_not_testable :
  is_object (JObj {[ "kind" := JStr "SCALAR" ]}) = Ok false.
Proof. reflexivity. Qed.

Example non_null_list_is_testable :
  is_object (type_ref "NON_NULL" (type_ref "LIST" JNull)) = Ok true.
Proof. reflexivity. Qed.

Example object_under_two_wrappers_is_not_testable :
  is_object (type_ref "NON_NULL" (type_ref "NON_NULL" (type_ref "OBJECT" JNull)))
  = Ok false.
Proof. reflexivity. Qed.

Example same_field_name_listed_twice :
  testable_fields
    (_analyze_schema (JObj {[ "types" := JList sample_types ]}) (initial "")).2 =
  [ FieldInfo (JStr "Query") (JStr "users");
    FieldInfo (JStr "Query") (JStr "posts");
    FieldInfo (JStr "User") (JStr "users") ].
Proof. reflexivity. Qed.

Example analysis_stops_at_bad_field :
  let after :=
    _analyze_schema
      (JObj {[ "types" := JList
        [ schema_type "Query"
            [ schema_field "users" (type_ref "OBJECT" JNull);
              JObj {[ "name" := JStr "posts"; "type" := JStr "LIST" ]};
              schema_field "tags" (type_ref "LIST" JNull) ];
          schema_type "User" [ schema_field "friends" (type_ref "LIST" JNull) ] ] ]})
      (initial "") in
  after.1 = Raise (AttributeError "get") ∧
  testable_fields after.2 = [FieldInfo (JStr "Query") (JStr "users")].
Proof. vm_compute. done. Qed.

(** ** Builders on small inputs *)

Example alias_query_user_3 :
  alias_query "user" 3 =
  "query {alias_0: user { id name } alias_1: user { id name } alias_2: user { id name }}".
Proof. reflexivity. Qed.

Example directive_query_user_2 :
  directive_query "user" 2 =
  "query { user @include(if: true) @include(if: true) { id name } }".
Proof. reflexivity. Qed.

Example duplicate_query_user_4 :
  duplicate_query "user" 4 =
  "query { user { id name id name id name id name } }".
Proof. reflexivity. Qed.

Example alias_index_two_digits : str_of_nat 10 = "10".
Proof. reflexivity. Qed.

(** ** The claims at concrete inputs *)


(** C2 as stated fails: a type entry without [name] makes the analysis
    raise [KeyError]. *)
Lemma analysis_raises_on_nameless_type :
  (_analyze_schema (JObj {[ "types" := JList [JObj ∅] ]}) (initial "")).1
  = Raise (KeyError "name").
Proof. reflexivity. Qed.

Lemma analysis_ok_iff_entries_ok_witness :
  ({[ "types" := JList sample_types ]} : gmap string json) !! "types"
    = Some (JList sample_types) ∧
  (_analyze_schema (JObj {[ "types" := JList sample_types ]}) (initial "")).1 = Ok () ∧
  Forall type_ok sample_types ∧
  analyze_type (JObj {[ "name" := JStr "Empty"; "fields" := JNull ]}) (initial "")
    = (Ok (), initial "") ∧
  is_object (JObj {[ "kind" := JStr "SCALAR" ]}) = Ok false ∧
  analyze_field (schema_type "Query" []) (JObj {[ "name" := JStr "orphan" ]})
    (initial "") = (Ok (), initial "").
Proof.
  destruct (analysis_ok_iff_entries_ok {[ "types" := JList sample_types ]}
              sample_types (initial "")) as (Hiff & Hfields & Hof & Hty);
    [reflexivity|].
  split; [reflexivity|]. split; [reflexivity|].
  split; [apply Hiff; reflexivity|].
  split; [apply (Hfields _ "Empty"); [reflexivity|right; by eexists]|].
  split; [rewrite Hof by reflexivity; reflexivity|].
  apply Hty. reflexivity.
Defined.

(** C5 as stated fails: for the field name [alias_users] the alias query
    with [n = 1] holds [alias_] twice, not once. *)
Lemma alias_count_exceeds_n :
  occurrences "alias_" (alias_query "alias_users" 1) = 2 ∧
  Z.of_nat (occurrences "alias_" (alias_query "alias_users" 1)) ≠ 1%Z.
Proof. split; [reflexivity|discriminate]. Qed.

Lemma builders_assemble_queries_witness :
  (0 < 3)%Z ∧
  alias_query "user" 3 =
    "query {" +:+
    joined (λ i, "alias_" +:+ str_of_nat i +:+ ": " +:+ "user" +:+ " { id name }") 3
    +:+ "}" ∧
  Z.of_nat (occurrences "alias_" (alias_query "user" 3)) = 3%Z ∧
  Z.of_nat (occurrences "{ id name }" (alias_query "user" 3)) = 3%Z ∧
  Z.of_nat (occurrences "@include(if: true)" (directive_query "user" 3)) = 3%Z ∧
  Z.of_nat (occurrences "id name" (duplicate_query "user" 3)) = 3%Z.
Proof.
  assert (H : (0 < 3)%Z) by reflexivity.
  destruct (builders_assemble_queries "user" 3 H)
    as ((Halias & _ & _) & H1 & H2 & H3 & H4).
  split; [exact H|]. split; [exact Halias|].
  split; [apply H1; reflexivity|]. split; [apply H2; reflexivity|].
  split; [apply H3; reflexivity|apply H4; reflexivity].
Defined.



(** C7 as stated fails: when [response.json()] raises [ValueError], as
    [json.loads] does on an integer literal of more than 4300 digits,
    [_send_query] raises it. *)
Lemma send_query_passes_value_error :
  (_send_query (λ _ _, JsonRaises "" ValueError (1 # 10))
     "query { users { id name } }" (initial "http://localhost:4000/graphql")).1 =
  Raise ValueError.
Proof. reflexivity. Qed.

(** C8.  Introspection is enabled and lists one field, [Query.users];
    the endpoint answers the first probe with the JSON array [[1]].
    [_send_query] returns it, the time is printed, and the hint check
    [result and result.get('errors')] raises [AttributeError]: the guard
    takes care of [None] but not of a JSON value that is no object.  The
    run ends there, one probe posted of the three the field calls
    for. *)
Lemma run_ends_on_array_reply :
  let r := main (example_net (Response "[1]" (Some (JList [JNum 1])) (1 # 20)))
             (λ _, "") (λ _, None) "GraphQL.py" ["http://localhost:4000/graphql"] in
  r.1 = Uncaught (AttributeError "get") ∧
  length (testable_fields r.2) = 1 ∧
  length (posted r.2) = 2.
Proof. vm_compute. done. Qed.

(** C9 as stated fails: the first probe fails in transport and the run
    goes on, but [response.json()] raises [ValueError] on the reply to
    the second probe; the run ends there and the third probe is never
    posted. *)
Lemma later_probe_ends_run_after_failure :
  let endpoint := "http://localhost:4000/graphql" in
  let r := run (scripted_net [ TransportFailure "connection refused";
                               JsonRaises "" ValueError (1 # 20) ])
             (λ _, "") endpoint 2 in
  r.1 = Raise ValueError ∧
  testable_fields r.2 = [FieldInfo (JStr "Query") (JStr "users")] ∧
  posted r.2 =
    [ introspection_request endpoint;
      probe_request endpoint (alias_query "users" 2);
      probe_request endpoint (directive_query "users" 2) ].
Proof. vm_compute. done. Qed.

Lemma transport_failure_does_not_end_run_witness :
  let net := example_net (TransportFailure "connection refused") in
  let endpoint := "http://localhost:4000/graphql" in
  (run net (λ _, "") endpoint 2).1 = Ok () ∧
  posted (run net (λ _, "") endpoint 2).2 =
    [ introspection_request endpoint;
      probe_request endpoint (alias_query "users" 2);
      probe_request endpoint (directive_query "users" 2);
      probe_request endpoint (duplicate_query "users" 2) ].
Proof.
  cbn zeta.
  destruct (transport_failure_does_not_end_run
              (example_net (TransportFailure "connection refused")) (λ _, "")
              "http://localhost:4000/graphql" 2
              (test_introspection
                 (example_net (TransportFailure "connection refused"))
                 (started "http://localhost:4000/graphql")).2
              0 (alias_query "users" 2) "connection refused")
    as (_ & _ & _ & Hall).
  - vm_compute. reflexivity.
  - vm_compute. reflexivity.
  - intros j qj Hj. lia.
  - reflexivity.
  - destruct Hall as [Hok Hposted]; [intros j qj _ _; reflexivity|].
    split; [exact Hok|]. rewrite Hposted. vm_compute. reflexivity.
Defined.

Lemma introspection_exception_is_trapped_witness :
  let net := λ (_ : list request) (_ : request),
               Response "" (Some broken_response) (1 # 10) in
  let endpoint := "http://localhost:4000/graphql" in
  introspection_body net (started endpoint) =
    (Raise (KeyError "name"),
     State endpoint [FieldInfo (JStr "Query") (JStr "users")]
       [ Text ("Testing GraphQL endpoint: " +:+ endpoint);
         Text (nl +:+ "✅ Introspection is ENABLED!") ]
       [ introspection_request endpoint ]) ∧
  (test_introspection net (started endpoint)).1 = Ok false ∧
  run net (λ _, "") endpoint 100 =
    (Ok (),
     State endpoint [FieldInfo (JStr "Query") (JStr "users")]
       [ Text ("Testing GraphQL endpoint: " +:+ endpoint);
         Text (nl +:+ "✅ Introspection is ENABLED!");
         IntrospectionError (KeyError "name");
         Text (nl +:+ "Cannot proceed with testing - introspection is disabled") ]
       [ introspection_request endpoint ]).
Proof.
  cbn zeta.
  assert (H : introspection_body
                (λ _ _, Response "" (Some broken_response) (1 # 10))
                (started "http://localhost:4000/graphql") =
              (Raise (KeyError "name"),
               State "http://localhost:4000/graphql"
                 [FieldInfo (JStr "Query") (JStr "users")]
                 [ Text ("Testing GraphQL endpoint: " +:+ "http://localhost:4000/graphql");
                   Text (nl +:+ "✅ Introspection is ENABLED!") ]
                 [ introspection_request "http://localhost:4000/graphql" ]))
    by (vm_compute; reflexivity).
  destruct (introspection_exception_is_trapped
              (λ _ _, Response "" (Some broken_response) (1 # 10)) (λ _, "")
              "http://localhost:4000/graphql" 100 _ _ H) as [H1 H2].
  split; [exact H|]. split; [by rewrite H1|exact H2].
Defined.

(** ** The further properties at concrete inputs *)

Lemma one_unwrap_suffices_witness :
  ∃ b : bool,
    is_object (JObj {[ "kind" := JStr "NON_NULL"; "name" := JNull;
                       "ofType" := type_ref "LIST" JNull ]}) = Ok b ∧
    (b = true ↔
     resolves (JObj {[ "kind" := JStr "NON_NULL"; "name" := JNull;
                       "ofType" := type_ref "LIST" JNull ]}) "OBJECT" ∨
     resolves (JObj {[ "kind" := JStr "NON_NULL"; "name" := JNull;
                       "ofType" := type_ref "LIST" JNull ]}) "LIST").
Proof.
  apply (one_unwrap_suffices
           {[ "kind" := JStr "NON_NULL"; "name" := JNull;
              "ofType" := type_ref "LIST" JNull ]}).
  exists "NON_NULL". split; [reflexivity|]. left. split; [reflexivity|].
  exists {[ "kind" := JStr "LIST"; "name" := JNull; "ofType" := JNull ]}, "LIST".
  split; [reflexivity|]. split; [reflexivity|discriminate].
Defined.

Lemma other_keys_ignored_witness :
  is_object (JObj (<["description" := JStr "All users"]>
                     {[ "kind" := JStr "SCALAR" ]})) = Ok false ∧
  analyze_field (schema_type "Query" [])
    (JObj (<["description" := JStr "All users"]>
             {[ "name" := JStr "users"; "type" := type_ref "OBJECT" JNull ]}))
    (initial "") =
    (Ok (), add_fields [FieldInfo (JStr "Query") (JStr "users")] (initial "")) ∧
  analyze_type
    (JObj (<["description" := JStr "All users"]>
             {[ "name" := JStr "Empty"; "fields" := JNull ]}))
    (initial "") = (Ok (), initial "").
Proof.
  destruct (other_keys_ignored "description" (JStr "All users")) as (H1 & H2 & H3).
  split; [rewrite H1 by discriminate; reflexivity|].
  split; [rewrite H2 by discriminate; reflexivity|].
  rewrite H3 by discriminate. reflexivity.
Defined.

Lemma builders_without_repetition_witness :
  (-1 ≤ 0)%Z ∧
  alias_query "users" (-1) = "query {}" ∧
  directive_query "users" (-1) = "query { " +:+ "users" +:+ "  { id name } }" ∧
  duplicate_query "users" (-1) = "query { " +:+ "users" +:+ " {  } }".
Proof.
  assert (H : (-1 ≤ 0)%Z) by lia.
  split; [exact H|]. exact (builders_without_repetition "users" (-1) H).
Defined.

Lemma query_sizes_witness :
  (0 < 100)%Z ∧
  String.length (directive_query "users" 100) = 1927 ∧
  String.length (duplicate_query "users" 100) = 819 ∧
  2707 ≤ String.length (alias_query "users" 100).
Proof.
  assert (H : (0 < 100)%Z) by lia.
  split; [exact H|]. exact (query_sizes "users" 100 H).
Defined.

Lemma attacks_transcript_witness :
  let endpoint := "http://localhost:4000/graphql" in
  test_overloading_attacks (example_net empty_users) (λ _, "")
    (FieldInfo (JStr "Query") (JStr "users")) 2 (initial endpoint) =
  (Ok (),
   State endpoint []
     [ TestingField (JStr "Query") (JStr "users");
       Text "========================================";
       Text (nl +:+ "Testing Alias Overloading...");
       ResponseTime (1 # 20);
       Text (nl +:+ "Testing Directive Overloading...");
       ResponseTime (1 # 20);
       Text (nl +:+ "Testing Field Duplication...");
       ResponseTime (1 # 20) ]
     [ probe_request endpoint (alias_query "users" 2);
       probe_request endpoint (directive_query "users" 2);
       probe_request endpoint (duplicate_query "users" 2) ]).
Proof.
  cbn zeta.
  rewrite (attacks_transcript (example_net empty_users) (λ _, "")
             (FieldInfo (JStr "Query") (JStr "users")) 2
             (initial "http://localhost:4000/graphql"));
    reflexivity.
Defined.

Lemma schema_without_types_witness :
  let endpoint := "http://localhost:4000/graphql" in
  run (λ _ _, Response ""
                (Some (JObj {[ "data" := JObj {[ "__schema" := JObj ∅ ]} ]}))
                (1 # 10))
    (λ _, "") endpoint 100 =
  (Ok (),
   State endpoint []
     [ Text ("Testing GraphQL endpoint: " +:+ endpoint);
       Text (nl +:+ "✅ Introspection is ENABLED!");
       IntrospectionError (KeyError "types");
       Text (nl +:+ "Cannot proceed with testing - introspection is disabled") ]
     [ introspection_request endpoint ]).
Proof.
  cbn zeta.
  apply (schema_without_types
           (λ _ _, Response ""
                     (Some (JObj {[ "data" := JObj {[ "__schema" := JObj ∅ ]} ]}))
                     (1 # 10))
           (λ _, "") "http://localhost:4000/graphql" 100 "" (1 # 10)
           {[ "data" := JObj {[ "__schema" := JObj ∅ ]} ]}
           {[ "__schema" := JObj ∅ ]} ∅ (KeyError "types")).
  - reflexivity.
  - reflexivity.
  - reflexivity.
  - left. split; reflexivity.
Defined.

Lemma introspection_enabled_iff_witness :
  let endpoint := "http://localhost:4000/graphql" in
  test_introspection (example_net empty_users) (started endpoint) =
  (Ok true,
   State endpoint [FieldInfo (JStr "Query") (JStr "users")]
     (Text ("Testing GraphQL endpoint: " +:+ endpoint) ::
      Text (nl +:+ "✅ Introspection is ENABLED!") ::
      analysis_report [FieldInfo (JStr "Query") (JStr "users")])
     [ introspection_request endpoint ]).
Proof.
  cbn zeta.
  apply (introspection_enabled_iff (example_net empty_users)
           (started "http://localhost:4000/graphql")).
  eexists "", (1 # 10), _, _, _, _, _.
  split; [reflexivity|]. split; [reflexivity|]. split; [reflexivity|].
  split; [reflexivity|]. split; [reflexivity|].
  split; [|reflexivity].
  eapply (analyze_types_ok_inv _ (initial "")). vm_compute. reflexivity.
Defined.

Lemma analysis_accumulates_witness :
  testable_fields
    ((_analyze_schema (JObj {[ "types" := JList sample_types ]}) ;;
      _analyze_schema
        (JObj {[ "types" := JList [ schema_type "Mutation"
                  [ schema_field "addUser" (type_ref "OBJECT" JNull) ] ] ]}))
       (initial "")).2 =
  [ FieldInfo (JStr "Query") (JStr "users");
    FieldInfo (JStr "Query") (JStr "posts");
    FieldInfo (JStr "User") (JStr "users");
    FieldInfo (JStr "Mutation") (JStr "addUser") ].
Proof.
  rewrite (analysis_accumulates
             {[ "types" := JList sample_types ]}
             {[ "types" := JList [ schema_type "Mutation"
                  [ schema_field "addUser" (type_ref "OBJECT" JNull) ] ] ]}
             sample_types
             [ schema_type "Mutation"
                 [ schema_field "addUser" (type_ref "OBJECT" JNull) ] ]
             (initial "")).
  - reflexivity.
  - reflexivity.
  - eapply (analyze_types_ok_inv _ (initial "")). vm_compute. reflexivity.
  - reflexivity.
  - eapply (analyze_types_ok_inv _ (initial "")). vm_compute. reflexivity.
Defined.

Lemma three_probes_per_field_witness :
  parse_iterations (λ _, None) [] = Some 100%Z ∧
  ∃ final,
    main (example_net empty_users) (λ _, "") (λ _, None)
      "GraphQL.py" ["http://localhost:4000/graphql"] = (Finished, final) ∧
    testable_fields final = [FieldInfo (JStr "Query") (JStr "users")] ∧
    posted final =
      [ introspection_request "http://localhost:4000/graphql";
        probe_request "http://localhost:4000/graphql" (alias_query "users" 100);
        probe_request "http://localhost:4000/graphql" (directive_query "users" 100);
        probe_request "http://localhost:4000/graphql" (duplicate_query "users" 100) ].
Proof.
  apply (three_probes_per_field (example_net empty_users) (λ _, "") (λ _, None)
           "GraphQL.py" "http://localhost:4000/graphql" [] 100
           (test_introspection (example_net empty_users)
              (started "http://localhost:4000/graphql")).2).
  - reflexivity.
  - vm_compute. reflexivity.
  - intros k q _. reflexivity.
Defined.
